(** * Recruitment dashboard (icims_dashboard.py): a shallow embedding

    The development follows the Python source: the [ICIMSConnector]
    fetch operations over an explicit HTTP outcome, and the
    [RecruitmentDashboard] pipeline ([_preprocess_data],
    [calculate_metrics] and the tables behind the three charts) over
    lists of records.

    Modelling conventions.
    - A record is a Python dict from field names to JSON values; the
      fields requested from the API are textual, so a value is a string
      or null ([None]).
    - A data frame is the list of its rows; a column exists when some
      record carries the key, and a missing cell reads as NaN/None.
    - A timestamp is pandas' int64 count of nanoseconds since
      1970-01-01 ([datetime64[ns]]), in UTC when the column has a time
      zone; NaT is [None].  Sums of timestamps are checked for int64
      overflow, as pandas with nanosecond resolution does.
    - [pandas.to_datetime] is a parameter of the engine, a [conversion]:
      given the values of a column it tells how a string of that column
      is read (pandas may infer the format from the column as a whole)
      and whether the converted column carries a time zone; a converted
      column is without time zone or has one fixed UTC offset.  Every
      theorem holds for any such conversion.  Examples use [iso_dates],
      which reads the calendar-date form [YYYY-MM-DD], and [zulu_dates],
      which also reads [YYYY-MM-DDT00:00:00Z].
    - Means and ratios are exact rationals; pandas rounds them to the
      nearest double.
    - A raised exception is a value of [result]. *)

From Stdlib Require Import ZArith QArith String Ascii List OrderedTypeEx Sorted.
From stdpp Require Import gmap strings list sorting.

Local Open Scope string_scope.
Local Open Scope Z_scope.

(** ** Exceptions and results *)

Inductive exn : Type :=
  | KeyError (key : string)
  | AttributeError (what : string)
  | TypeError (operator : string)
  | OverflowError.

Inductive result (A : Type) : Type :=
  | Ok (a : A)
  | Raise (e : exn).
Arguments Ok {A} a.
Arguments Raise {A} e.

(** Sequencing stops at the first exception. *)
#[export] Instance result_bind : MBind result := λ A B k r,
  match r with
  | Ok a => k a
  | Raise e => Raise e
  end.
#[export] Instance result_ret : MRet result := λ A a, Ok a.

Definition returns {A : Type} (r : result A) : Prop := ∃ a, r = Ok a.

(** ** Sortable group keys

    [groupby] and [merge] order their keys with Python's [<]; the keys
    here are strings (compared by code point) and week ordinals. *)

Class KeyOrder (K : Type) := {
  kcmp : K → K → comparison;
  kcmp_eq : ∀ a b, kcmp a b = Eq ↔ a = b;
  kcmp_antisym : ∀ a b, kcmp b a = CompOpp (kcmp a b);
  kcmp_trans : ∀ a b c, kcmp a b = Lt → kcmp b c = Lt → kcmp a c = Lt
}.

#[export] Program Instance string_order : KeyOrder string :=
  {| kcmp := String.compare |}.
Next Obligation. intros a b. apply String_as_OT.cmp_eq. Qed.
Next Obligation. intros a b. apply String.compare_antisym. Qed.
Next Obligation.
  intros a b c Hab Hbc.
  apply String_as_OT.cmp_lt.
  eapply String_as_OT.lt_trans; apply String_as_OT.cmp_lt; eassumption.
Qed.

#[export] Program Instance Z_order : KeyOrder Z :=
  {| kcmp := Z.compare |}.
Next Obligation. intros a b. apply Z.compare_eq_iff. Qed.
Next Obligation. intros a b. apply Z.compare_antisym. Qed.
Next Obligation.
  intros a b c Hab Hbc. rewrite Z.compare_lt_iff in *. lia.
Qed.

Definition klt {K} `{KeyOrder K} (a b : K) : Prop := kcmp a b = Lt.

(** ** Group-by, sorted by key *)

Section GroupBy.
Context {K : Type} `{EqDecision K} `{KeyOrder K}.

(** Insertion into a strictly ascending list of distinct keys. *)
Fixpoint insert_key (k : K) (ks : list K) : list K :=
  match ks with
  | [] => [k]
  | k' :: ks' =>
      match kcmp k k' with
      | Lt => k :: ks
      | Eq => ks
      | Gt => k' :: insert_key k ks'
      end
  end.

(** The distinct keys in ascending order. *)
Definition unique_sorted (ks : list K) : list K := foldr insert_key [] ks.

(** [df.groupby(key)]: one group per distinct non-null key, groups in
    ascending key order ([sort=True]), rows with a null key dropped
    ([dropna=True]), rows of a group in frame order. *)
Definition groupby {R : Type} (key : R → option K) (rows : list R)
    : list (K * list R) :=
  (λ k, (k, filter (λ r, key r = Some k) rows))
    <$> unique_sorted (omap key rows).

(** [df.groupby(key).size()] *)
Definition groupby_size {R : Type} (key : R → option K) (rows : list R)
    : list (K * nat) :=
  prod_map id length <$> groupby key rows.

Definition ascending (ks : list K) : Prop := StronglySorted klt ks.
End GroupBy.

(** ** ICIMSConnector

    The remote API is a function from requests to outcomes.  The
    exceptions [requests] raises for a failed connection, an error status
    ([raise_for_status]) and a body that is not JSON ([response.json()])
    are all subclasses of [RequestException].  Of a JSON number only its
    truthiness is used, so numbers are kept as integers. *)

#[warnings="-register-all"]
Inductive json : Type :=
  | JNull
  | JBool (b : bool)
  | JNum (n : Z)
  | JStr (s : string)
  | JArr (l : list json)
  | JObj (m : gmap string json).

Inductive param : Type :=
  | PStr (s : string)
  | PInt (n : Z).

Record request : Type := {
  url : string;
  bearer : option json;
  params : list (string * param);
  payload : list (string * string)
}.

Inductive http_outcome : Type :=
  | ConnectionFailed (what : string)
  | Response (status : Z) (body : option json).

Definition server : Type := request → http_outcome.

(** The fields of [ICIMSConnector]; [base_url] is kept as the constructor
    leaves it, without trailing slashes, and [session_bearer] is the
    token of the session's [Authorization] header. *)
Record connector : Type := {
  base_url : string;
  username : string;
  password : string;
  customer_id : string;
  session_bearer : option json;
  auth_token : json
}.

(** What a connector call yields: the value returned or the exception
    raised, the connector afterwards, and the lines printed. *)
Record outcome (A : Type) : Type := {
  returned : result A;
  after : connector;
  printed : list string
}.
Arguments returned {A} o.
Arguments after {A} o.
Arguments printed {A} o.

(** Python truthiness, for [if not self.auth_token]. *)
Definition truthy (j : json) : bool :=
  match j with
  | JNull => false
  | JBool b => b
  | JNum n => negb (n =? 0)
  | JStr s => negb (String.eqb s "")
  | JArr l => match l with [] => false | _ => true end
  | JObj m => negb (bool_decide (m = ∅))
  end.

(** [data.get(key, default)]: only a dict has [get]. *)
Definition json_get (data : json) (key : string) (dflt : json) : result json :=
  match data with
  | JObj m => Ok (default dflt (m !! key))
  | _ => Raise (AttributeError "get")
  end.

(** The three calls inside each [try]: the request, [raise_for_status]
    and [response.json()].  The left side is the [RequestException]. *)
Definition exchange (srv : server) (rq : request) : string + json :=
  match srv rq with
  | ConnectionFailed what => inl what
  | Response status body =>
      if (400 <=? status) && (status <? 600) then inl "HTTPError"
      else match body with
           | None => inl "JSONDecodeError"
           | Some data => inr data
           end
  end.

(** The POST of [authenticate]. *)
Definition auth_request (c : connector) : request :=
  {| url := base_url c ++ "/connect/authorize";
     bearer := session_bearer c;
     params := [];
     payload := [("username", username c); ("password", password c);
                 ("customerid", customer_id c)] |}.

(** The GET of a fetch operation. *)
Definition get_request (c : connector) (path : string)
    (query : list (string * param)) : request :=
  {| url := base_url c ++ path; bearer := session_bearer c;
     params := query; payload := [] |}.

(** The connector once [auth_token] and the session header are set. *)
Definition with_token (c : connector) (token : json) : connector :=
  {| base_url := base_url c; username := username c;
     password := password c; customer_id := customer_id c;
     session_bearer := Some token; auth_token := token |}.

Definition authenticate (srv : server) (c : connector) : outcome bool :=
  match exchange srv (auth_request c) with
  | inr auth_response =>
      match json_get auth_response "access_token" JNull with
      | Ok token =>
          {| returned := Ok true; after := with_token c token;
             printed := [] |}
      | Raise e => {| returned := Raise e; after := c; printed := [] |}
      end
  | inl e =>
      {| returned := Ok false; after := c;
         printed := ["Authentication failed: " ++ e] |}
  end.

(** The shape shared by the three fetch operations: authenticate when
    there is no token, then one GET whose [RequestException]s are caught. *)
Definition fetch (srv : server) (c : connector) (path : string)
    (query : list (string * param)) (key what : string) : outcome json :=
  let go (c : connector) (log : list string) : outcome json :=
    match exchange srv (get_request c path query) with
    | inr data =>
        {| returned := json_get data key (JArr []); after := c;
           printed := log |}
    | inl e =>
        {| returned := Ok (JArr []); after := c;
           printed := log ++ ["Error fetching " ++ what ++ ": " ++ e] |}
    end in
  if truthy (auth_token c) then go c []
  else
    let a := authenticate srv c in
    match returned a with
    | Ok true => go (after a) (printed a)
    | Ok false =>
        {| returned := Ok (JArr []); after := after a; printed := printed a |}
    | Raise e =>
        {| returned := Raise e; after := after a; printed := printed a |}
    end.

Definition jobs_query (status : string) (limit : Z)
    : list (string * param) :=
  [("status", PStr status); ("limit", PInt limit);
   ("fields",
    PStr "id,title,department,location,status,dateposted,dateclosed,recruiter")].

Definition candidates_query (job_id : option string) (limit : Z)
    : list (string * param) :=
  [("limit", PInt limit);
   ("fields",
    PStr "id,firstname,lastname,email,phone,status,source,dateadded,jobid,recruiter")]
  ++ match job_id with
     | Some j => if String.eqb j "" then [] else [("jobid", PStr j)]
     | None => []
     end.

Definition get_jobs (srv : server) (c : connector) (status : string)
    (limit : Z) : outcome json :=
  fetch srv c "/connect/jobs" (jobs_query status limit) "jobs" "jobs".

Definition get_candidates (srv : server) (c : connector)
    (job_id : option string) (limit : Z) : outcome json :=
  fetch srv c "/connect/candidates" (candidates_query job_id limit)
    "candidates" "candidates".

Definition get_workflow_steps (srv : server) (c : connector)
    (job_id : string) : outcome json :=
  fetch srv c ("/connect/jobs/" ++ job_id ++ "/workflow") []
    "steps" "workflow steps".

(** A [RequestException] is raised by a request: the connection fails,
    the status is an error, or the body is not JSON. *)
Definition raises_request_exception (srv : server) (rq : request) : Prop :=
  ∃ e, exchange srv rq = inl e.

(** A [RequestException] is raised in the course of a fetch: by the GET,
    or before it by the request for a token. *)
Definition fetch_fails (srv : server) (c : connector) (path : string)
    (query : list (string * param)) : Prop :=
  if truthy (auth_token c)
  then raises_request_exception srv (get_request c path query)
  else
    raises_request_exception srv (auth_request c)
    ∨ ∃ m, exchange srv (auth_request c) = inr (JObj m)
           ∧ raises_request_exception srv
               (get_request (with_token c (default JNull (m !! "access_token")))
                  path query).

(** An empty sequence is returned and an error is reported. *)
Definition degraded (o : outcome json) : Prop :=
  returned o = Ok (JArr []) ∧ printed o ≠ [].

(** ** Records and data frames *)

(** A raw record, as returned by the API: field name to string or null. *)
Abbreviation record := (gmap string (option string)).

(** [df[c]] of one row: an absent key and a null both read as missing. *)
Definition cell (r : record) (c : string) : option string := r !! c ≫= id.

(** [c in df.columns] for [df = pd.DataFrame(records)]. *)
Definition has_column (df : list record) (c : string) : bool :=
  bool_decide (Exists (λ r, is_Some (r !! c)) df).

(** [df.empty]: no rows, or no columns (every record is the empty dict). *)
Definition empty (df : list record) : bool :=
  bool_decide (Forall (λ r, r = ∅) df).

(** [df[c]] raises [KeyError] when the column does not exist. *)
Definition column (df : list record) (c : string) : result unit :=
  if has_column df c then Ok () else Raise (KeyError c).

(** The values of a column, row by row. *)
Definition column_values (df : list record) (c : string)
    : list (option string) :=
  (λ r, cell r c) <$> df.

(** ** Calendar arithmetic *)

Definition ns_per_day : Z := 86400000000000.

(** Days since 1970-01-01 of a proleptic Gregorian date. *)
Definition days_from_civil (y m d : Z) : Z :=
  let y' := if m <=? 2 then y - 1 else y in
  let era := y' / 400 in
  let yoe := y' - era * 400 in
  let mp := (m + 9) mod 12 in
  let doy := (153 * mp + 2) / 5 + d - 1 in
  let doe := yoe * 365 + yoe / 4 - yoe / 100 + doy in
  era * 146097 + doe - 719468.

(** Year and month of a day number. *)
Definition civil_from_days (days : Z) : Z * Z :=
  let z := days + 719468 in
  let era := z / 146097 in
  let doe := z - era * 146097 in
  let yoe := (doe - doe / 1460 + doe / 36524 - doe / 146096) / 365 in
  let doy := doe - (365 * yoe + yoe / 4 - yoe / 100) in
  let mp := (5 * doy + 2) / 153 in
  let m := if mp <? 10 then mp + 3 else mp - 9 in
  let y := yoe + era * 400 in
  (if m <=? 2 then y + 1 else y, m).

Definition is_leap (y : Z) : bool :=
  (y mod 4 =? 0) && (negb (y mod 100 =? 0) || (y mod 400 =? 0)).

Definition days_in_month (y m : Z) : Z :=
  if m =? 2 then (if is_leap y then 29 else 28)
  else if (m =? 4) || (m =? 6) || (m =? 9) || (m =? 11) then 30
  else 31.

(** [Timestamp.to_period('W')]: weeks run Monday to Sunday; day 0 is a
    Thursday, so the week of day [d] starts on day [7 * w - 3]. *)
Definition week_of (ts : Z) : Z := (ts / ns_per_day + 3) / 7.

(** [Timestamp.to_period('M')]: months since January 1970. *)
Definition month_of (ts : Z) : Z :=
  let '(y, m) := civil_from_days (ts / ns_per_day) in
  (y - 1970) * 12 + (m - 1).

(** [Timedelta.days]: the whole days of a difference, rounded down. *)
Definition timedelta_days (delta : Z) : Z := delta / ns_per_day.

Definition digit (c : ascii) : option Z :=
  let n := Z.of_N (N_of_ascii c) in
  if (48 <=? n) && (n <=? 57) then Some (n - 48) else None.

(** The calendar-date form [YYYY-MM-DD] of [pandas.to_datetime]; the
    timestamp is midnight of that day.  Other forms are outside this
    fragment and read as NaT here. *)
Definition iso_to_datetime (s : string) : option Z :=
  match list_ascii_of_string s with
  | [y1; y2; y3; y4; s1; m1; m2; s2; d1; d2] =>
      y1 ← digit y1; y2 ← digit y2; y3 ← digit y3; y4 ← digit y4;
      m1 ← digit m1; m2 ← digit m2; d1 ← digit d1; d2 ← digit d2;
      let y := 1000 * y1 + 100 * y2 + 10 * y3 + y4 in
      let m := 10 * m1 + m2 in
      let d := 10 * d1 + d2 in
      if Ascii.eqb s1 "-"%char && Ascii.eqb s2 "-"%char
         && (1 <=? m) && (m <=? 12) && (1 <=? d) && (d <=? days_in_month y m)
      then Some (days_from_civil y m d * ns_per_day)
      else None
  | _ => None
  end.

(** [pd.to_datetime(column, errors='coerce')]: how a string of the
    column is read ([None] is NaT, otherwise the int64 nanoseconds since
    the epoch, in UTC when the column has a time zone), and the time zone
    of the converted column: [None] for [datetime64[ns]], the offset from
    UTC in nanoseconds for [datetime64[ns, tz]]. *)
Record conversion : Type := {
  read_cell :> list (option string) → string → option Z;
  utc_offset : list (option string) → option Z
}.

(** The parser of the examples: every column is read as calendar dates,
    without time zone. *)
Definition iso_dates : conversion :=
  {| read_cell := λ _, iso_to_datetime; utc_offset := λ _, None |}.

(** [YYYY-MM-DDT00:00:00Z]: midnight UTC of that day. *)
Definition zulu_to_datetime (s : string) : option Z :=
  if String.eqb (String.substring 10 10 s) "T00:00:00Z"
     && (String.length s =? 20)%nat
  then iso_to_datetime (String.substring 0 10 s)
  else None.

(** Every string of the column ends in the UTC designator. *)
Definition zulu (col : list (option string)) : bool :=
  match omap id col with
  | [] => false
  | strings =>
      forallb (λ s, bool_decide (is_Some (zulu_to_datetime s))) strings
  end.

(** A second parser for the examples: a column of [...T00:00:00Z] strings
    is read as UTC timestamps and has the time zone UTC; any other column
    is read as calendar dates without time zone. *)
Definition zulu_dates : conversion :=
  {| read_cell :=
       λ col, if zulu col then zulu_to_datetime else iso_to_datetime;
     utc_offset := λ col, if zulu col then Some 0 else None |}.

(** ** int64 arithmetic on timestamps *)

Definition int64_min : Z := -9223372036854775808.
Definition int64_max : Z := 9223372036854775807.

(** The checked int64 addition behind [datetime - datetime] raises. *)
Definition overflows (delta : Z) : bool :=
  (delta <? int64_min) || (int64_max <? delta).

(** An int64 value that is a [Timedelta]; [int64_min] itself is NaT. *)
Definition fits_timedelta (delta : Z) : bool :=
  bool_decide (int64_min < delta ≤ int64_max).

(** The difference of two timestamps as a [Timedelta]. *)
Definition timedelta (c p : Z) : option Z :=
  if fits_timedelta (c - p) then Some (c - p) else None.

(** ** Arithmetic mean *)

Definition sum_Z (xs : list Z) : Z := foldr Z.add 0 xs.

(** [Series.mean()] of a non-empty series of whole numbers. *)
Definition mean (xs : list Z) : Q :=
  Qdiv (inject_Z (sum_Z xs)) (inject_Z (Z.of_nat (length xs))).

(** ** RecruitmentDashboard *)

(** A row of [jobs_df] after preprocessing: the raw record, its two date
    columns converted, and the derived column. *)
Record job : Type := {
  job_record : record;
  dateposted : option Z;
  dateclosed : option Z;
  days_to_fill : option Z
}.

(** A row of [candidates_df] after preprocessing; [dateadded_tz] is the
    time zone of the [dateadded] column, the same in every row. *)
Record candidate : Type := {
  candidate_record : record;
  dateadded : option Z;
  dateadded_tz : option Z;
  week : option Z;
  month : option Z
}.

Record dashboard : Type := {
  jobs_df : list job;
  candidates_df : list candidate
}.

(** Values of the metrics dict. *)
Inductive metric : Type :=
  | MInt (n : Z)
  | MFloat (q : Q)
  | MStr (s : string).

(** [pd.to_datetime(col, errors='coerce')] on one cell, given how the
    strings of the column are read: null and unreadable strings are NaT. *)
Definition to_datetime_coerce (read : string → option Z)
    (c : option string) : option Z :=
  c ≫= read.

(** A row of a frame that was left untouched because it is empty. *)
Definition raw_job (r : record) : job :=
  {| job_record := r; dateposted := None; dateclosed := None;
     days_to_fill := None |}.

Definition raw_candidate (r : record) : candidate :=
  {| candidate_record := r; dateadded := None; dateadded_tz := None;
     week := None; month := None |}.

(** One job row: the two conversions and the subtraction, a row of a
    column subtraction that did not raise. *)
Definition preprocess_job (read_posted read_closed : string → option Z)
    (r : record) : job :=
  let posted := to_datetime_coerce read_posted (cell r "dateposted") in
  let closed := to_datetime_coerce read_closed (cell r "dateclosed") in
  {| job_record := r; dateposted := posted; dateclosed := closed;
     days_to_fill :=
       c ← closed; p ← posted; timedelta_days <$> timedelta c p |}.

(** The wall-clock time of a timestamp in the time zone of its column,
    which [to_period] uses. *)
Definition wall_clock (tz : option Z) (t : Z) : Z := t + default 0 tz.

(** One candidate row: the conversion and the two periods. *)
Definition preprocess_candidate (tz : option Z)
    (read_added : string → option Z) (r : record) : candidate :=
  let added := to_datetime_coerce read_added (cell r "dateadded") in
  {| candidate_record := r; dateadded := added; dateadded_tz := tz;
     week := week_of <$> (wall_clock tz <$> added);
     month := month_of <$> (wall_clock tz <$> added) |}.

Section Dashboard.
(** [pandas.to_datetime] on a column. *)
Context (to_datetime : conversion).

Definition preprocess_jobs (jobs : list record) : list job :=
  preprocess_job (to_datetime (column_values jobs "dateposted"))
                 (to_datetime (column_values jobs "dateclosed")) <$> jobs.

Definition preprocess_candidates (candidates : list record)
    : list candidate :=
  preprocess_candidate
    (utc_offset to_datetime (column_values candidates "dateadded"))
    (to_datetime (column_values candidates "dateadded"))
    <$> candidates.

(** Whether the two converted date columns of the jobs are both with or
    both without a time zone. *)
Definition same_awareness (jobs : list record) : bool :=
  bool_decide
    (is_Some (utc_offset to_datetime (column_values jobs "dateclosed"))
     ↔ is_Some (utc_offset to_datetime (column_values jobs "dateposted"))).

(** The differences [dateclosed - dateposted] of the rows in which both
    dates parse. *)
Definition date_differences (jobs : list record) : list Z :=
  omap (λ r,
          c ← cell r "dateclosed"
                ≫= to_datetime (column_values jobs "dateclosed");
          p ← cell r "dateposted"
                ≫= to_datetime (column_values jobs "dateposted");
          Some (c - p)) jobs.

(** [jobs_df['dateclosed'] - jobs_df['dateposted']]: a column with a
    time zone and one without cannot be subtracted, and the int64
    subtraction is checked for overflow. *)
Definition subtract_dates (jobs : list record) : result unit :=
  if negb (same_awareness jobs) then Raise (TypeError "-")
  else if existsb overflows (date_differences jobs) then Raise OverflowError
  else Ok ().

(** [_preprocess_data].  The conversions are guarded by
    [col in columns]; the subtraction and the [.dt] accesses index the
    columns directly. *)
Definition _preprocess_data (jobs candidates : list record)
    : result dashboard :=
  jobs' ←
    (if empty jobs then Ok (raw_job <$> jobs)
     else
       _ ← column jobs "dateclosed";
       _ ← column jobs "dateposted";
       _ ← subtract_dates jobs;
       Ok (preprocess_jobs jobs));
  candidates' ←
    (if empty candidates then Ok (raw_candidate <$> candidates)
     else
       _ ← column candidates "dateadded";
       Ok (preprocess_candidates candidates));
  Ok {| jobs_df := jobs'; candidates_df := candidates' |}.

Definition jobs_empty (d : dashboard) : bool :=
  empty (job_record <$> jobs_df d).

Definition candidates_empty (d : dashboard) : bool :=
  empty (candidate_record <$> candidates_df d).

Definition job_cell (c : string) (j : job) : option string :=
  cell (job_record j) c.

Definition candidate_cell (c : string) (x : candidate) : option string :=
  cell (candidate_record x) c.

(** The distinct values in order of first appearance. *)
Fixpoint first_seen (l : list string) : list string :=
  match l with
  | [] => []
  | x :: l' => x :: filter (λ y, y ≠ x) (first_seen l')
  end.

(** Insertion of a value seen before all those of [l] into a list
    sorted by descending count. *)
Fixpoint insert_by_count (p : string * nat) (l : list (string * nat))
    : list (string * nat) :=
  match l with
  | [] => [p]
  | q :: l' =>
      if decide (q.2 ≤ p.2)%nat then p :: l
      else q :: insert_by_count p l'
  end.

(** [Series.value_counts()]: counts of the non-null values, most
    frequent first, equal counts in order of first appearance. *)
Definition value_counts (col : list (option string))
    : list (string * nat) :=
  let vals := omap id col in
  foldr insert_by_count []
    ((λ v, (v, length (filter (λ y, y = v) vals))) <$> first_seen vals).

(** [timedelta(days=30)] *)
Definition thirty_days : Z := 30 * ns_per_day.

(** [series >= t] on one cell; a comparison with NaT is False. *)
Definition timestamp_ge (o : option Z) (t : Z) : bool :=
  match o with
  | Some t' => bool_decide (t ≤ t')
  | None => false
  end.

(** The [dateadded] column has a time zone. *)
Definition dateadded_aware (candidates : list candidate) : bool :=
  existsb (λ x, bool_decide (is_Some (dateadded_tz x))) candidates.

(** [candidates_df['dateadded'] >= t] for a [datetime] [t] without time
    zone: a column with a time zone cannot be compared with it. *)
Definition compare_dateadded (candidates : list candidate) : result unit :=
  if dateadded_aware candidates then Raise (TypeError ">=") else Ok ().

(** [calculate_metrics], with [datetime.now()] passed as [now]. *)
Definition calculate_metrics (now : Z) (d : dashboard)
    : result (gmap string metric) :=
  let metrics : gmap string metric := ∅ in
  metrics ←
    (if jobs_empty d then Ok metrics
     else
       let jobs := jobs_df d in
       let metrics :=
         <["total_jobs" := MInt (Z.of_nat (length jobs))]> metrics in
       _ ← column (job_record <$> jobs) "status";
       let metrics :=
         <["open_jobs" :=
             MInt (Z.of_nat (length
               (filter (λ j, job_cell "status" j = Some "open") jobs)))]>
           metrics in
       let metrics :=
         <["closed_jobs" :=
             MInt (Z.of_nat (length
               (filter (λ j, job_cell "status" j = Some "closed") jobs)))]>
           metrics in
       let filled_jobs := filter (λ j, is_Some (days_to_fill j)) jobs in
       Ok (<["avg_time_to_fill" :=
               match filled_jobs with
               | [] => MInt 0
               | _ => MFloat (mean (omap days_to_fill filled_jobs))
               end]> metrics));
  if candidates_empty d then Ok metrics
  else
    let candidates := candidates_df d in
    let metrics :=
      <["total_candidates" := MInt (Z.of_nat (length candidates))]>
        metrics in
    _ ← compare_dateadded candidates;
    let metrics :=
      <["candidates_this_month" :=
          MInt (Z.of_nat (length
            (filter (λ x, timestamp_ge (dateadded x) (now - thirty_days))
               candidates)))]>
        metrics in
    _ ← column (candidate_record <$> candidates) "source";
    let source_counts := value_counts (candidate_cell "source" <$> candidates) in
    Ok (<["top_source" :=
            match source_counts with
            | (s, _) :: _ => MStr s
            | [] => MStr "N/A"
            end]> metrics).

(** The subtraction of the two date columns does not raise, and every
    difference of two parsed dates is a [Timedelta]. *)
Definition dates_subtractable (jobs : list record) : bool :=
  same_awareness jobs && forallb fits_timedelta (date_differences jobs).

(** The converted [dateadded] column has no time zone. *)
Definition naive_dateadded (candidates : list record) : bool :=
  bool_decide
    (utc_offset to_datetime (column_values candidates "dateadded") = None).

(** The frames [_preprocess_data] leaves behind when it returns: an
    empty candidates frame is left untouched. *)
Definition preprocessed (jobs candidates : list record) : dashboard :=
  {| jobs_df := preprocess_jobs jobs;
     candidates_df :=
       if empty candidates then raw_candidate <$> candidates
       else preprocess_candidates candidates |}.

(** [extract_data] after the two fetches, followed by
    [calculate_metrics]: the summary of a pair of raw datasets. *)
Definition summary_metrics (now : Z) (jobs candidates : list record)
    : result (gmap string metric) :=
  d ← _preprocess_data jobs candidates;
  calculate_metrics now d.
End Dashboard.

(** ** Outer merge on a key column *)

Section Merge.
Context {K : Type} `{EqDecision K} `{KeyOrder K}.

(** The row of a table with the given key. *)
Fixpoint assoc {A : Type} (k : K) (l : list (K * A)) : option A :=
  match l with
  | [] => None
  | (k', a) :: l' => if decide (k' = k) then Some a else assoc k l'
  end.

(** [pd.merge(left, right, on=key, how='outer')] of two tables whose
    keys are distinct within each table: one row per key of either
    side, in ascending key order, a missing side left as NaN. *)
Definition merge_outer {A B : Type} (left : list (K * A))
    (right : list (K * B)) : list (K * (option A * option B)) :=
  (λ k, (k, (assoc k left, assoc k right)))
    <$> unique_sorted (left.*1 ++ right.*1).
End Merge.

(** ** The tables behind the charts *)

Module Position.
Record row : Type := {
  Position : string;
  Total_Jobs : nat;
  Avg_Days_to_Fill : option Q;
  Open_Jobs : nat
}.
End Position.

Module Recruiter.
Record row : Type := {
  Recruiter : string;
  Total_Jobs : nat;
  Avg_Days_to_Fill : Q;
  Total_Candidates : nat
}.
End Recruiter.

(** A bar or line trace: its name, categories and values (NaN is [None]). *)
Record trace : Type := {
  trace_name : string;
  trace_x : list string;
  trace_y : list (option Q)
}.

(** A figure is the list of its traces; [go.Figure()] has none. *)
Definition figure : Type := list trace.

Definition Q_of_nat (n : nat) : Q := inject_Z (Z.of_nat n).

(** ['count'] of the [id] column: the non-null ids. *)
Definition count_id (g : list job) : nat :=
  length (filter (λ j, is_Some (job_cell "id" j)) g).

(** ['mean'] of the [days_to_fill] column: NaN when none is defined. *)
Definition mean_days_to_fill (g : list job) : option Q :=
  match omap days_to_fill g with
  | [] => None
  | xs => Some (mean xs)
  end.

(** [lambda x: (x == 'open').sum()] on the [status] column. *)
Definition count_open (g : list job) : nat :=
  length (filter (λ j, job_cell "status" j = Some "open") g).

(** The frame [position_metrics] of [create_position_metrics_chart],
    computed once the jobs frame is known not to be empty. *)
Definition position_metrics (d : dashboard) : result (list Position.row) :=
  let jobs := jobs_df d in
  _ ← column (job_record <$> jobs) "title";
  _ ← column (job_record <$> jobs) "id";
  _ ← column (job_record <$> jobs) "status";
  let groups := groupby (job_cell "title") jobs in
  let position_metrics :=
    (λ '(title, g),
       {| Position.Position := title;
          Position.Total_Jobs := count_id g;
          Position.Avg_Days_to_Fill := mean_days_to_fill g;
          Position.Open_Jobs := count_open g |}) <$> groups in
  Ok (take 15 position_metrics).

Definition create_position_metrics_chart (d : dashboard) : result figure :=
  if jobs_empty d then Ok []
  else
    position_metrics ← position_metrics d;
    Ok [ {| trace_name := "Total Jobs";
            trace_x := Position.Position <$> position_metrics;
            trace_y :=
              (λ r, Some (Q_of_nat (Position.Total_Jobs r)))
                <$> position_metrics |};
         {| trace_name := "Avg Days to Fill";
            trace_x := Position.Position <$> position_metrics;
            trace_y := Position.Avg_Days_to_Fill <$> position_metrics |} ].

(** [recruiter_jobs]: per recruiter, the count of ids and the mean of
    [days_to_fill]. *)
Definition recruiter_jobs (d : dashboard)
    : result (list (string * (nat * option Q))) :=
  let jobs := jobs_df d in
  _ ← column (job_record <$> jobs) "recruiter";
  _ ← column (job_record <$> jobs) "id";
  Ok (prod_map id (λ g, (count_id g, mean_days_to_fill g))
        <$> groupby (job_cell "recruiter") jobs).

(** [recruiter_candidates]: per recruiter, the number of candidates. *)
Definition recruiter_candidates (d : dashboard)
    : result (list (string * nat)) :=
  let candidates := candidates_df d in
  _ ← column (candidate_record <$> candidates) "recruiter";
  Ok (groupby_size (candidate_cell "recruiter") candidates).

(** One merged row after [fillna(0)]. *)
Definition fillna_row
    (r : string * (option (nat * option Q) * option nat)) : Recruiter.row :=
  let '(k, (jobs_side, candidates_side)) := r in
  {| Recruiter.Recruiter := k;
     Recruiter.Total_Jobs := default 0%nat (fst <$> jobs_side);
     Recruiter.Avg_Days_to_Fill := default 0%Q (jobs_side ≫= snd);
     Recruiter.Total_Candidates := default 0%nat candidates_side |}.

(** The outer merge of the two per-recruiter tables with NaN filled by 0,
    before the truncation. *)
Definition recruiter_merged (d : dashboard) : result (list Recruiter.row) :=
  recruiter_jobs ← recruiter_jobs d;
  recruiter_candidates ← recruiter_candidates d;
  Ok (fillna_row <$> merge_outer recruiter_jobs recruiter_candidates).

(** The frame [recruiter_metrics] of [create_recruiter_metrics_chart]. *)
Definition recruiter_metrics (d : dashboard) : result (list Recruiter.row) :=
  merged ← recruiter_merged d;
  Ok (take 10 merged).

(** [Total_Candidates / (Total_Jobs + 1)] *)
Definition efficiency (r : Recruiter.row) : Q :=
  Qdiv (Q_of_nat (Recruiter.Total_Candidates r))
       (Q_of_nat (Recruiter.Total_Jobs r) + 1)%Q.

Definition create_recruiter_metrics_chart (d : dashboard) : result figure :=
  if jobs_empty d || candidates_empty d then Ok []
  else
    recruiter_metrics ← recruiter_metrics d;
    let x := Recruiter.Recruiter <$> recruiter_metrics in
    Ok [ {| trace_name := "Jobs"; trace_x := x;
            trace_y :=
              (λ r, Some (Q_of_nat (Recruiter.Total_Jobs r)))
                <$> recruiter_metrics |};
         {| trace_name := "Candidates"; trace_x := x;
            trace_y :=
              (λ r, Some (Q_of_nat (Recruiter.Total_Candidates r)))
                <$> recruiter_metrics |};
         {| trace_name := "Days to Fill"; trace_x := x;
            trace_y :=
              (λ r, Some (Recruiter.Avg_Days_to_Fill r))
                <$> recruiter_metrics |};
         {| trace_name := "Efficiency"; trace_x := x;
            trace_y := (λ r, Some (efficiency r)) <$> recruiter_metrics |} ].

(** The frame [weekly_data] of [create_timeline_chart]: the candidates
    per week, weeks ascending, candidates without a week dropped. *)
Definition weekly_data (d : dashboard) : list (Z * nat) :=
  groupby_size week (candidates_df d).

(** The points of the single trace of [create_timeline_chart]; the week
    is drawn as its string. *)
Definition create_timeline_chart (d : dashboard) : list (Z * nat) :=
  if candidates_empty d then [] else weekly_data d.

(** ** Which inputs the pipeline accepts *)

(** The columns [_preprocess_data] indexes without a guard. *)
Definition jobs_preprocessable (jobs : list record) : bool :=
  empty jobs || has_column jobs "dateclosed" && has_column jobs "dateposted".

Definition candidates_preprocessable (candidates : list record) : bool :=
  empty candidates || has_column candidates "dateadded".

(** The columns [calculate_metrics] indexes as well. *)
Definition jobs_summarisable (jobs : list record) : bool :=
  empty jobs
  || has_column jobs "dateclosed" && has_column jobs "dateposted"
     && has_column jobs "status".

Definition candidates_summarisable (candidates : list record) : bool :=
  empty candidates
  || has_column candidates "dateadded" && has_column candidates "source".

(** [metrics.get(key, 0)], as the dashboard reads the summary. *)
Definition metrics_get (m : gmap string metric) (key : string) : metric :=
  default (MInt 0) (m !! key).

(** The [dateadded] values that parse, in frame order. *)
Definition parsed_dateadded
    (to_datetime : conversion)
    (candidates : list record) : list Z :=
  omap (λ r, cell r "dateadded"
             ≫= to_datetime (column_values candidates "dateadded"))
    candidates.

(** ** Example datasets *)

Definition rec (fields : list (string * option string)) : record :=
  list_to_map fields.

(** Midnight of a calendar date. *)
Definition midnight (y m d : Z) : Z := days_from_civil y m d * ns_per_day.

(** A job posted on 2024-01-01 and closed on 2024-01-11. *)
Definition job_filled_in_ten_days : record :=
  rec [("id", Some "J1"); ("title", Some "Engineer");
       ("status", Some "closed"); ("recruiter", Some "Recruiter A");
       ("dateposted", Some "2024-01-01"); ("dateclosed", Some "2024-01-11")].

(** A candidate added on 2024-03-01. *)
Definition candidate_of_march : record :=
  rec [("id", Some "C1"); ("source", Some "Referral");
       ("recruiter", Some "Recruiter A"); ("dateadded", Some "2024-03-01")].

(** Following the spec's words for [candidates_this_month]: the
    candidates whose parsed [date_added] lies between [now - 30 days]
    and [now]. *)
Definition candidates_in_last_30_days
    (to_datetime : conversion) (now : Z)
    (candidates : list record) : nat :=
  length (filter (λ t, now - thirty_days ≤ t ∧ t ≤ now)
            (parsed_dateadded to_datetime candidates)).

(** An open job with the given id and title; [dateclosed] is null. *)
Definition titled_job (id title : string) : record :=
  rec [("id", Some id); ("title", Some title); ("status", Some "open");
       ("recruiter", Some "Recruiter A");
       ("dateposted", Some "2024-01-01"); ("dateclosed", None)].

(** Seventeen jobs over sixteen titles, listed from "p" down to "a";
    title "p" has two jobs and every other title one. *)
Definition sixteen_titles : list record :=
  titled_job "J0" "p"
  :: ((λ t, titled_job ("J-" ++ t) t)
        <$> ["p"; "o"; "n"; "m"; "l"; "k"; "j"; "i"; "h"; "g"; "f"; "e";
             "d"; "c"; "b"; "a"]).

(** The index of the first job with the given title. *)
Definition first_position (title : string) (jobs : list record) : option nat :=
  fst <$> list_find (λ r, cell r "title" = Some title) jobs.

Definition count_title (title : string) (jobs : list record) : nat :=
  length (filter (λ r, cell r "title" = Some title) jobs).

(** Following the spec's words for [group_by_position]: the rows come in
    the order in which their titles first appear in the input. *)
Definition in_order_of_first_appearance (jobs : list record)
    (rows : list Position.row) : Prop :=
  ∀ i j ri rj pi pj,
    (i < j)%nat → rows !! i = Some ri → rows !! j = Some rj →
    first_position (Position.Position ri) jobs = Some pi →
    first_position (Position.Position rj) jobs = Some pj →
    (pi < pj)%nat.

(** Following the spec's words for [group_by_position]: the rows are the
    groups with the highest job counts, so no title that is left out has
    more jobs than a title that is listed. *)
Definition keeps_highest_counts (jobs : list record)
    (rows : list Position.row) : Prop :=
  ∀ title row,
    row ∈ rows → title ∉ Position.Position <$> rows →
    (count_title title jobs ≤ Position.Total_Jobs row)%nat.

Definition recruited_job (id recruiter : string) : record :=
  rec [("id", Some id); ("title", Some "Engineer"); ("status", Some "open");
       ("recruiter", Some recruiter);
       ("dateposted", Some "2024-01-01"); ("dateclosed", None)].

Definition recruited_candidate (id recruiter : string) : record :=
  rec [("id", Some id); ("source", Some "Referral");
       ("recruiter", Some recruiter); ("dateadded", Some "2024-01-03")].

(** Recruiter A has two jobs and five candidates, Recruiter B no job
    and three candidates. *)
Definition jobs_of_A : list record :=
  [recruited_job "J1" "Recruiter A"; recruited_job "J2" "Recruiter A"].

Definition candidates_of_A_and_B : list record :=
  ((λ id, recruited_candidate id "Recruiter A")
     <$> ["C1"; "C2"; "C3"; "C4"; "C5"])
  ++ ((λ id, recruited_candidate id "Recruiter B") <$> ["C6"; "C7"; "C8"]).

(** A connector that has not authenticated yet, and one that has. *)
Definition fresh_connector : connector :=
  {| base_url := "https://example.icims.com"; username := "user";
     password := "secret"; customer_id := "42";
     session_bearer := None; auth_token := JNull |}.

Definition logged_in_connector : connector :=
  with_token fresh_connector (JStr "token").

(** A server that cannot be reached. *)
Definition unreachable : server := λ _, ConnectionFailed "connection refused".

(** A server that answers 200 with a JSON array instead of an object. *)
Definition array_server : server := λ _, Response 200 (Some (JArr [])).

(** An open job whose record has no [dateclosed] key. *)
Definition open_job_without_dateclosed : record :=
  rec [("id", Some "J1"); ("title", Some "Engineer"); ("status", Some "open");
       ("recruiter", Some "Recruiter A"); ("dateposted", Some "2024-01-01")].

(** A job posted on the calendar date 2024-01-01 and closed on
    2024-01-11 at midnight UTC: the converted [dateposted] column has no
    time zone, the [dateclosed] column has one. *)
Definition job_closed_in_utc : record :=
  rec [("id", Some "J1"); ("title", Some "Engineer");
       ("status", Some "closed"); ("recruiter", Some "Recruiter A");
       ("dateposted", Some "2024-01-01");
       ("dateclosed", Some "2024-01-11T00:00:00Z")].

(** A job posted on 1700-01-01 and closed on 2200-01-01: both dates are
    within the range of a nanosecond timestamp, their difference is not
    within the range of an int64. *)
Definition job_of_five_centuries : record :=
  rec [("id", Some "J1"); ("title", Some "Engineer");
       ("status", Some "closed"); ("recruiter", Some "Recruiter A");
       ("dateposted", Some "1700-01-01"); ("dateclosed", Some "2200-01-01")].

(** A candidate with the given [dateadded]. *)
Definition added_candidate (id : string) (dateadded : option string)
    : record :=
  rec [("id", Some id); ("source", Some "Referral");
       ("recruiter", Some "Recruiter A"); ("dateadded", dateadded)].

(** A candidate added on 2024-01-03 at midnight UTC. *)
Definition candidate_added_in_utc : record :=
  added_candidate "C1" (Some "2024-01-03T00:00:00Z").

(** Four candidates: two with a date, one with an unreadable date and
    one whose date is null. *)
Definition candidates_with_unreadable_dates : list record :=
  [added_candidate "C1" (Some "2024-01-03");
   added_candidate "C2" (Some "not a date");
   added_candidate "C3" None;
   added_candidate "C4" (Some "2024-01-10")].

(** Candidates added on Monday 2024-01-01, on Monday 2024-01-08 and on
    Sunday 2024-01-07, in this order. *)
Definition candidates_of_two_weeks : list record :=
  [added_candidate "C1" (Some "2024-01-01");
   added_candidate "C2" (Some "2024-01-08");
   added_candidate "C3" (Some "2024-01-07")].

(** ** The constructor, the operations as data, and the refresh *)

(** [s.rstrip('/')] *)
Fixpoint rstrip_slash (s : string) : string :=
  match s with
  | EmptyString => EmptyString
  | String a s' =>
      match rstrip_slash s' with
      | EmptyString =>
          if Ascii.eqb a "/"%char then EmptyString else String a EmptyString
      | rest => String a rest
      end
  end.

(** [ICIMSConnector.__init__] *)
Definition new_connector (base_url username password customer_id : string)
    : connector :=
  {| base_url := rstrip_slash base_url; username := username;
     password := password; customer_id := customer_id;
     session_bearer := None; auth_token := JNull |}.

(** A run of [n] slashes. *)
Fixpoint slashes (n : nat) : string :=
  match n with
  | O => EmptyString
  | S n' => String "/"%char (slashes n')
  end.

Fixpoint ends_with_slash (s : string) : bool :=
  match s with
  | EmptyString => false
  | String a EmptyString => Ascii.eqb a "/"%char
  | String _ s' => ends_with_slash s'
  end.

(** The three fetch operations with their arguments. *)
Inductive operation : Type :=
  | GetJobs (status : string) (limit : Z)
  | GetCandidates (job_id : option string) (limit : Z)
  | GetWorkflowSteps (job_id : string).

Definition run (srv : server) (c : connector) (op : operation)
    : outcome json :=
  match op with
  | GetJobs status limit => get_jobs srv c status limit
  | GetCandidates job_id limit => get_candidates srv c job_id limit
  | GetWorkflowSteps job_id => get_workflow_steps srv c job_id
  end.

(** The GET an operation sends from a given connector. *)
Definition operation_request (c : connector) (op : operation) : request :=
  match op with
  | GetJobs status limit =>
      get_request c "/connect/jobs" (jobs_query status limit)
  | GetCandidates job_id limit =>
      get_request c "/connect/candidates" (candidates_query job_id limit)
  | GetWorkflowSteps job_id =>
      get_request c ("/connect/jobs/" ++ job_id ++ "/workflow") []
  end.

(** The key under which an operation expects its list. *)
Definition operation_key (op : operation) : string :=
  match op with
  | GetJobs _ _ => "jobs"
  | GetCandidates _ _ => "candidates"
  | GetWorkflowSteps _ => "steps"
  end.

(** The session's [Authorization] header carries the stored token, and
    there is no header before a token was stored. *)
Definition header_carries_token (c : connector) : Prop :=
  (session_bearer c = None ∧ auth_token c = JNull)
  ∨ session_bearer c = Some (auth_token c).

(** A 2xx or 3xx answer with a JSON body that is not an object. *)
Definition answers_non_object (srv : server) (rq : request) : Prop :=
  ∃ data, exchange srv rq = inr data ∧ ∀ m, data ≠ JObj m.

Section ExtractData.
(** [pd.DataFrame] on the fetched data, which raises on data it cannot
    lay out as a table, and [pd.to_datetime]. *)
Context (DataFrame : json → result (list record)).
Context (to_datetime : conversion).

(** [extract_data]: the two fetches, the two frames and the
    preprocessing; an exception of a step ends it there. *)
Definition extract_data (srv : server) (c : connector) : outcome dashboard :=
  let j := get_jobs srv c "open" 500 in
  let log := "Extracting jobs data..." :: printed j in
  match jobs_data ← returned j; DataFrame jobs_data with
  | Raise e => {| returned := Raise e; after := after j; printed := log |}
  | Ok jobs_df =>
      let k := get_candidates srv (after j) None 1000 in
      let log := (log ++ "Extracting candidates data..." :: printed k)%list in
      {| returned :=
           candidates_data ← returned k;
           candidates_df ← DataFrame candidates_data;
           _preprocess_data to_datetime jobs_df candidates_df;
         after := after k; printed := log |}
  end.

(** What the sidebar shows after the button was pressed. *)
Inductive notice : Type :=
  | DataExtracted
  | ErrorExtracting (e : exn)
  | FillInAllFields.

(** The "Connect & Refresh Data" button of [create_streamlit_dashboard]:
    [session] is [st.session_state['dashboard']], absent when [None]. *)
Definition connect_and_refresh (srv : server)
    (base_url username password customer_id : string)
    (session : option dashboard) : option dashboard * notice :=
  if negb (String.eqb base_url "") && negb (String.eqb username "")
     && negb (String.eqb password "") && negb (String.eqb customer_id "")
  then
    let connector := new_connector base_url username password customer_id in
    match returned (extract_data srv connector) with
    | Ok dashboard => (Some dashboard, DataExtracted)
    | Raise e => (session, ErrorExtracting e)
    end
  else (session, FillInAllFields).
End ExtractData.


(** A [DataFrame] constructor for the examples: every dataset is read
    as the frame without rows. *)
Definition no_rows (data : json) : result (list record) := Ok [].

(** A server that answers every request with the same JSON object. *)
Definition constant_server (m : gmap string json) : server :=
  λ _, Response 200 (Some (JObj m)).

(** A server that answers the token request, the one request with a
    payload, with the given token, and every GET with an object without
    entries. *)
Definition token_server (token : json) : server :=
  λ rq, match payload rq with
        | [] => Response 200 (Some (JObj ∅))
        | _ => Response 200 (Some (JObj {["access_token" := token]}))
        end.

(** One closed and one open job, preprocessed, and no candidates. *)
Definition two_jobs : dashboard :=
  {| jobs_df :=
       preprocess_jobs iso_dates
         [job_filled_in_ten_days; titled_job "J2" "Analyst"];
     candidates_df := [] |}.

(** The eight candidates of Recruiter A and Recruiter B, preprocessed,
    with the two jobs of Recruiter A. *)
Definition two_recruiters : dashboard :=
  {| jobs_df := preprocess_jobs iso_dates jobs_of_A;
     candidates_df := preprocess_candidates iso_dates candidates_of_A_and_B |}.

(** * Properties *)

Lemma sum_list_fmap {A : Type} (f : A → nat) (l : list A) :
  sum_list (f <$> l) = sum_list_with f l.
Proof.
  rewrite !sum_list_with_foldr.
  induction l as [|x l IH]; simpl; [done|]. by f_equal.
Qed.

Section GroupByFacts.
Context {K : Type} `{EqDecision K} `{KeyOrder K}.

Lemma klt_irrefl (a : K) : ¬ klt a a.
Proof.
  unfold klt. intros Hlt.
  assert (kcmp a a = Eq) as Heq by (by apply kcmp_eq).
  congruence.
Qed.

Lemma kcmp_gt_lt (a b : K) : kcmp a b = Gt → klt b a.
Proof. unfold klt. intros Hgt. by rewrite kcmp_antisym, Hgt. Qed.

Lemma elem_of_insert_key (x k : K) (ks : list K) :
  x ∈ insert_key k ks ↔ x = k ∨ x ∈ ks.
Proof.
  induction ks as [|k' ks IH]; simpl.
  - rewrite list_elem_of_singleton, elem_of_nil. tauto.
  - destruct (kcmp k k') eqn:Hc.
    + apply kcmp_eq in Hc as ->. rewrite elem_of_cons. tauto.
    + rewrite elem_of_cons. tauto.
    + rewrite !elem_of_cons, IH. tauto.
Qed.

Lemma insert_key_ascending (k : K) (ks : list K) :
  ascending ks → ascending (insert_key k ks).
Proof.
  unfold ascending.
  induction 1 as [|k' ks Hs IH Hall]; simpl.
  - repeat constructor.
  - destruct (kcmp k k') eqn:Hc.
    + by constructor.
    + constructor; [by constructor|].
      constructor; [exact Hc|].
      eapply Forall_impl; [exact Hall|].
      intros y Hy. by eapply kcmp_trans.
    + constructor; [exact IH|].
      apply Forall_forall. intros y Hy.
      apply elem_of_insert_key in Hy as [->|Hy].
      * by apply kcmp_gt_lt.
      * rewrite Forall_forall in Hall. by apply Hall.
Qed.

Lemma unique_sorted_ascending (ks : list K) : ascending (unique_sorted ks).
Proof.
  induction ks as [|k ks IH]; simpl.
  - constructor.
  - by apply insert_key_ascending.
Qed.

Lemma elem_of_unique_sorted (x : K) (ks : list K) :
  x ∈ unique_sorted ks ↔ x ∈ ks.
Proof.
  induction ks as [|k ks IH]; simpl; [done|].
  rewrite elem_of_insert_key, elem_of_cons, IH. tauto.
Qed.

Lemma ascending_NoDup (ks : list K) : ascending ks → NoDup ks.
Proof.
  induction 1 as [|k ks Hs IH Hall]; constructor; [|done].
  intros Hin. rewrite Forall_forall in Hall.
  by apply (klt_irrefl k), Hall.
Qed.

Lemma groupby_keys {R : Type} (key : R → option K) (rows : list R) :
  (groupby key rows).*1 = unique_sorted (omap key rows).
Proof.
  unfold groupby. rewrite <- list_fmap_compose.
  by rewrite list_fmap_id.
Qed.

Lemma groupby_size_keys {R : Type} (key : R → option K) (rows : list R) :
  (groupby_size key rows).*1 = unique_sorted (omap key rows).
Proof.
  unfold groupby_size. rewrite <- groupby_keys, <- list_fmap_compose.
  apply list_fmap_ext. by intros _ [k g] _.
Qed.

(** A key names a group exactly when some row carries it. *)
Lemma elem_of_groupby_keys {R : Type} (key : R → option K) rows (k : K) :
  k ∈ (groupby key rows).*1 ↔ ∃ r, r ∈ rows ∧ key r = Some k.
Proof.
  rewrite groupby_keys, elem_of_unique_sorted, list_elem_of_omap.
  naive_solver.
Qed.

Lemma elem_of_groupby {R : Type} (key : R → option K) rows k (g : list R) :
  (k, g) ∈ groupby key rows →
  g = filter (λ r, key r = Some k) rows ∧ k ∈ unique_sorted (omap key rows).
Proof.
  unfold groupby. rewrite list_elem_of_fmap.
  intros (k' & [= -> ->] & Hin). done.
Qed.

(** How many keys of a duplicate-free list equal the key of a row. *)
Lemma sum_indicator (o : option K) (ks : list K) :
  NoDup ks →
  sum_list_with (λ k, if decide (o = Some k) then 1%nat else 0%nat) ks
  = match o with
    | Some k => if decide (k ∈ ks) then 1%nat else 0%nat
    | None => 0%nat
    end.
Proof.
  induction 1 as [|k ks Hnotin Hnd IH]; simpl.
  - destruct o as [x|]; [|done].
    destruct (decide (x ∈ [])) as [Hin|]; [by apply elem_of_nil in Hin|done].
  - rewrite IH. destruct o as [x|]; [|by case_decide].
    destruct (decide (Some x = Some k)) as [Heq|Hne];
      destruct (decide (x ∈ ks)) as [Hin|Hin];
      destruct (decide (x ∈ k :: ks)) as [Hin'|Hin'];
      simplify_eq; try done; exfalso;
      first [ apply Hin'; by left
            | apply Hin'; by right
            | apply elem_of_cons in Hin' as [->|?]; done ].
Qed.

Lemma sum_group_sizes {R : Type} (key : R → option K) (rows : list R)
    (ks : list K) :
  NoDup ks →
  sum_list_with (λ k, length (filter (λ r, key r = Some k) rows)) ks
  = length (filter (.∈ ks) (omap key rows)).
Proof.
  intros Hnd. induction rows as [|r rows IH].
  - simpl. clear Hnd. induction ks as [|k ks IHks]; simpl; [done|].
    by rewrite IHks.
  - transitivity
      (sum_list_with (λ k, if decide (key r = Some k) then 1 else 0)%nat ks
       + sum_list_with
           (λ k, length (filter (λ r, key r = Some k) rows)) ks)%nat.
    { clear IH Hnd. induction ks as [|k ks IHks]; simpl; [done|].
      rewrite IHks, filter_cons.
      destruct (decide (key r = Some k)); simpl; lia. }
    rewrite IH, sum_indicator by done. simpl.
    destruct (key r) as [x|]; [|done].
    rewrite filter_cons. by destruct (decide (x ∈ ks)).
Qed.

Lemma filter_elem_of_all (l ks : list K) :
  (∀ x, x ∈ l → x ∈ ks) → filter (.∈ ks) l = l.
Proof.
  induction l as [|x l IH]; intros Hall; [done|].
  rewrite filter_cons, decide_True by (apply Hall; left).
  f_equal. apply IH. intros y Hy. apply Hall. by right.
Qed.

(** The groups partition the rows that have a key. *)
Lemma groupby_size_sum {R : Type} (key : R → option K) (rows : list R) :
  sum_list (groupby_size key rows).*2 = length (omap key rows).
Proof.
  unfold groupby_size, groupby.
  rewrite <- !list_fmap_compose, sum_list_fmap.
  rewrite (sum_group_sizes key rows)
    by apply ascending_NoDup, unique_sorted_ascending.
  f_equal. apply filter_elem_of_all.
  intros x. by rewrite elem_of_unique_sorted.
Qed.

Lemma elem_of_groupby_size {R : Type} (key : R → option K) rows k (n : nat) :
  (k, n) ∈ groupby_size key rows ↔
  k ∈ unique_sorted (omap key rows)
  ∧ n = length (filter (λ r, key r = Some k) rows).
Proof.
  unfold groupby_size, groupby.
  rewrite <- list_fmap_compose, list_elem_of_fmap. simpl. split.
  - by intros (k' & [= -> ->] & Hin).
  - intros [Hin ->]. by exists k.
Qed.
End GroupByFacts.

Lemma StronglySorted_mono {A : Type} (R1 R2 : A → A → Prop) (l : list A) :
  (∀ a b, R1 a b → R2 a b) → StronglySorted R1 l → StronglySorted R2 l.
Proof.
  intros Himpl. induction 1 as [|a l _ IH Hall]; constructor; [done|].
  eapply Forall_impl; [exact Hall|]. intros b. apply Himpl.
Qed.

Lemma column_ok (df : list record) (c : string) :
  has_column df c = true → column df c = Ok ().
Proof. unfold column. by intros ->. Qed.

Lemma cell_empty (c : string) : cell (∅ : record) c = None.
Proof. unfold cell. by rewrite lookup_empty. Qed.

Lemma omap_filter_is_Some {A B : Type} (f : A → option B) (l : list A) :
  omap f (filter (λ x, is_Some (f x)) l) = omap f l.
Proof.
  induction l as [|x l IH]; [done|].
  rewrite filter_cons. destruct (f x) as [y|] eqn:Hfx.
  - rewrite decide_True by eauto. simpl. rewrite Hfx. f_equal. exact IH.
  - rewrite decide_False by (by intros [? ?]). simpl. rewrite Hfx. exact IH.
Qed.

Lemma filter_is_Some_nil {A B : Type} (f : A → option B) (l : list A) :
  filter (λ x, is_Some (f x)) l = [] ↔ omap f l = [].
Proof.
  induction l as [|x l IH]; [done|].
  rewrite filter_cons. simpl. destruct (f x) as [y|] eqn:Hfx.
  - rewrite decide_True by eauto. done.
  - rewrite decide_False by (by intros [? ?]). exact IH.
Qed.

Lemma length_omap_le {A B : Type} (f : A → option B) (l : list A) :
  (length (omap f l) ≤ length l)%nat.
Proof.
  induction l as [|x l IH]; [done|].
  unfold omap in *. simpl. destruct (f x); simpl; lia.
Qed.

Lemma length_omap_eq {A B : Type} (f : A → option B) (l : list A) :
  length (omap f l) = length l ↔ Forall (λ x, is_Some (f x)) l.
Proof.
  induction l as [|x l IH].
  - split; [constructor|done].
  - pose proof (length_omap_le f l) as Hle. unfold omap in *. simpl.
    destruct (f x) as [y|] eqn:Hfx; simpl.
    + rewrite Forall_cons, <- IH, Hfx. split; [|lia].
      intros Hlen. split; [eauto|lia].
    + rewrite Forall_cons, Hfx. split; [lia|].
      intros [[? ?] _]. done.
Qed.

(** ** Rows, for any way of reading the dates *)

Section RowFacts.
Context (read_posted read_closed read_added : string → option Z).
Context (tz : option Z).

Lemma job_record_preprocess (jobs : list record) :
  job_record <$> (preprocess_job read_posted read_closed <$> jobs) = jobs.
Proof. rewrite <- list_fmap_compose. apply list_fmap_id. Qed.

Lemma candidate_record_preprocess (candidates : list record) :
  candidate_record <$> (preprocess_candidate tz read_added <$> candidates)
  = candidates.
Proof. rewrite <- list_fmap_compose. apply list_fmap_id. Qed.

Lemma candidate_record_raw (candidates : list record) :
  candidate_record <$> (raw_candidate <$> candidates) = candidates.
Proof. rewrite <- list_fmap_compose. apply list_fmap_id. Qed.

(** On an empty frame the untouched rows are the preprocessed ones. *)
Lemma raw_job_preprocess (jobs : list record) :
  empty jobs = true →
  raw_job <$> jobs = preprocess_job read_posted read_closed <$> jobs.
Proof.
  unfold empty. rewrite bool_decide_eq_true.
  induction 1 as [|r jobs -> _ IH]; [done|].
  rewrite !fmap_cons, IH. f_equal.
Qed.

(** When a job has its [days_to_fill]. *)
Lemma days_to_fill_preprocess_job (r : record) (x : Z) :
  days_to_fill (preprocess_job read_posted read_closed r) = Some x ↔
  ∃ p c, cell r "dateposted" ≫= read_posted = Some p
         ∧ cell r "dateclosed" ≫= read_closed = Some c
         ∧ int64_min < c - p ≤ int64_max
         ∧ x = (c - p) / ns_per_day.
Proof.
  unfold preprocess_job, to_datetime_coerce, timedelta, fits_timedelta,
    timedelta_days.
  simpl.
  destruct (cell r "dateclosed" ≫= read_closed) as [c|];
    destruct (cell r "dateposted" ≫= read_posted) as [p|]; simpl.
  - case_bool_decide as Hfit; simpl.
    + split; [intros [= <-]; eauto 6|].
      by intros (? & ? & [= <-] & [= <-] & _ & ->).
    + split; [done|]. by intros (? & ? & [= <-] & [= <-] & ? & _).
  - split; [done|]. by intros (? & ? & ? & _).
  - split; [done|]. by intros (? & ? & _ & ? & _).
  - split; [done|]. by intros (? & ? & ? & _).
Qed.

Lemma empty_days_to_fill (jobs : list record) :
  empty jobs = true →
  omap days_to_fill (preprocess_job read_posted read_closed <$> jobs) = [].
Proof.
  unfold empty. rewrite bool_decide_eq_true.
  induction 1 as [|r jobs -> _ IH]; [done|]. exact IH.
Qed.

Lemma empty_dateadded (candidates : list record) :
  empty candidates = true →
  omap (λ r, cell r "dateadded" ≫= read_added) candidates = [].
Proof.
  unfold empty. rewrite bool_decide_eq_true.
  induction 1 as [|r candidates -> _ IH]; [done|]. exact IH.
Qed.

Lemma dateadded_preprocess (candidates : list record) :
  omap dateadded (preprocess_candidate tz read_added <$> candidates)
  = omap (λ r, cell r "dateadded" ≫= read_added) candidates.
Proof.
  induction candidates as [|r candidates IH]; [done|].
  rewrite fmap_cons. unfold omap in *. simpl.
  unfold to_datetime_coerce. by rewrite IH.
Qed.

Lemma week_preprocess (candidates : list record) :
  omap week (preprocess_candidate tz read_added <$> candidates)
  = (λ t, week_of (wall_clock tz t))
      <$> omap (λ r, cell r "dateadded" ≫= read_added) candidates.
Proof.
  induction candidates as [|r candidates IH]; [done|].
  rewrite fmap_cons. unfold omap in *. simpl. unfold to_datetime_coerce.
  destruct (cell r "dateadded" ≫= read_added); simpl; by rewrite IH.
Qed.

Lemma week_raw (candidates : list record) :
  omap week (raw_candidate <$> candidates) = [].
Proof. induction candidates as [|r candidates IH]; [done|]. exact IH. Qed.

Lemma count_week (w : Z) (candidates : list record) :
  length (filter (λ x, week x = Some w)
            (preprocess_candidate tz read_added <$> candidates))
  = length (filter (λ t, week_of (wall_clock tz t) = w)
              (omap (λ r, cell r "dateadded" ≫= read_added) candidates)).
Proof.
  induction candidates as [|r candidates IH]; [done|].
  rewrite fmap_cons, filter_cons. unfold omap in *. simpl.
  unfold to_datetime_coerce.
  destruct (cell r "dateadded" ≫= read_added) as [t|]; simpl.
  - rewrite filter_cons.
    destruct (decide (week_of (wall_clock tz t) = w)),
      (decide (Some (week_of (wall_clock tz t)) = Some w)); simpl; congruence.
  - destruct (decide (None = Some w)); [done|]. exact IH.
Qed.

(** Every row of a preprocessed frame carries the column's time zone. *)
Lemma dateadded_aware_preprocess (candidates : list record) :
  candidates ≠ [] →
  dateadded_aware (preprocess_candidate tz read_added <$> candidates)
  = bool_decide (is_Some tz).
Proof.
  unfold dateadded_aware.
  destruct candidates as [|r candidates]; [done|]. intros _.
  rewrite fmap_cons. simpl.
  destruct (bool_decide (is_Some tz)) eqn:Htz; [done|].
  simpl. induction candidates as [|r' candidates IH]; [done|].
  rewrite fmap_cons. simpl. by rewrite Htz.
Qed.
End RowFacts.

Lemma count_timestamp_ge (t : Z) (candidates : list candidate) :
  length (filter (λ x, timestamp_ge (dateadded x) t) candidates)
  = length (filter (λ t', t ≤ t') (omap dateadded candidates)).
Proof.
  induction candidates as [|x candidates IH]; [done|].
  rewrite filter_cons. unfold omap in *. simpl.
  destruct (dateadded x) as [t'|]; simpl.
  - rewrite filter_cons.
    destruct (decide (t ≤ t')).
    + rewrite bool_decide_eq_true_2 by done. simpl. by rewrite IH.
    + rewrite bool_decide_eq_false_2 by done. simpl. exact IH.
  - exact IH.
Qed.

Lemma has_column_lookup (df : list record) (i : nat) (r : record)
    (c s : string) :
  df !! i = Some r → cell r c = Some s → has_column df c = true.
Proof.
  intros Hi Hc. unfold has_column. apply bool_decide_eq_true, Exists_exists.
  exists r. split; [by eapply list_elem_of_lookup_2|].
  unfold cell in Hc. destruct (r !! c); [eauto|done].
Qed.

Lemma empty_has_column (df : list record) (c : string) :
  has_column df c = true → empty df = false.
Proof.
  unfold has_column, empty. rewrite bool_decide_eq_true, bool_decide_eq_false.
  rewrite Exists_exists, Forall_forall. intros (r & Hin & [v Hv]) Hall.
  rewrite (Hall r Hin), lookup_empty in Hv. done.
Qed.

Lemma empty_nil (df : list record) : empty df = false → df ≠ [].
Proof. by intros He ->. Qed.

Lemma forallb_elem_of {A : Type} (f : A → bool) (l : list A) (x : A) :
  forallb f l = true → x ∈ l → f x = true.
Proof.
  induction l as [|y l IH]; simpl.
  - intros _ Hin. by apply elem_of_nil in Hin.
  - intros [Hy Hl]%andb_true_iff [->|Hin]%elem_of_cons; auto.
Qed.

Lemma omap_empty {B : Type} (f : record → option B) (df : list record) :
  f ∅ = None → empty df = true → omap f df = [].
Proof.
  intros Hf. unfold empty. rewrite bool_decide_eq_true.
  induction 1 as [|r df -> _ IH]; [done|].
  unfold omap in *. simpl. by rewrite Hf.
Qed.

Lemma days_of_differences (read_closed read_posted : string → option Z)
    (jobs : list record) :
  omap (λ r, c ← cell r "dateclosed" ≫= read_closed;
             p ← cell r "dateposted" ≫= read_posted;
             Some ((c - p) / 86400000000000)) jobs
  = (λ delta, delta / ns_per_day)
      <$> omap (λ r, c ← cell r "dateclosed" ≫= read_closed;
                     p ← cell r "dateposted" ≫= read_posted;
                     Some (c - p)) jobs.
Proof.
  induction jobs as [|r jobs IH]; [done|].
  unfold omap in *. simpl.
  destruct (cell r "dateclosed" ≫= read_closed) as [c|]; simpl; [|exact IH].
  destruct (cell r "dateposted" ≫= read_posted) as [p|]; simpl; [|exact IH].
  by rewrite IH.
Qed.

(** ** The week of a timestamp *)

Lemma div_lower_bound (t a : Z) : a ≤ t / ns_per_day ↔ a * ns_per_day ≤ t.
Proof.
  unfold ns_per_day.
  pose proof (Z.div_mod t 86400000000000 ltac:(lia)) as Heq.
  pose proof (Z.mod_pos_bound t 86400000000000 ltac:(lia)) as Hmod.
  lia.
Qed.

(** Weeks run from Monday 00:00, day [7 * w - 3] since the epoch, to the
    following Monday. *)
Lemma week_of_spec (t w : Z) :
  week_of t = w ↔
  (7 * w - 3) * 86400000000000 ≤ t < (7 * w + 4) * 86400000000000.
Proof.
  unfold week_of.
  pose proof (div_lower_bound t (7 * w - 3)) as Hlo.
  pose proof (div_lower_bound t (7 * w + 4)) as Hhi.
  unfold ns_per_day in *.
  pose proof (Z.div_mod (t / 86400000000000 + 3) 7 ltac:(lia)) as Heq.
  pose proof (Z.mod_pos_bound (t / 86400000000000 + 3) 7 ltac:(lia)) as Hmod.
  lia.
Qed.

(** ** What [calculate_metrics] stores *)

Lemma calculate_metrics_returns (now : Z) (d : dashboard) :
  jobs_empty d || has_column (job_record <$> jobs_df d) "status" = true →
  candidates_empty d
  || negb (dateadded_aware (candidates_df d))
     && has_column (candidate_record <$> candidates_df d) "source" = true →
  returns (calculate_metrics now d).
Proof.
  unfold calculate_metrics, compare_dateadded, returns. intros Hj Hc.
  destruct (jobs_empty d); simpl in Hj; [|rewrite (column_ok _ _ Hj)];
    simpl;
    (destruct (candidates_empty d); simpl in Hc;
     [|apply andb_true_iff in Hc as [Hnaive Hc];
       apply negb_true_iff in Hnaive;
       rewrite Hnaive; simpl; rewrite (column_ok _ _ Hc)]); simpl; eauto.
Qed.

Ltac run_calculate_metrics Hm :=
  unfold calculate_metrics, compare_dateadded in Hm;
  destruct (jobs_empty _); [|destruct (column _ "status")];
  simpl in Hm; try done;
  (destruct (candidates_empty _);
   [|destruct (dateadded_aware _); [|destruct (column _ "source")]]);
  simpl in Hm; try done; injection Hm as <-.

Lemma lookup_avg_time_to_fill (now : Z) (d : dashboard)
    (m : gmap string metric) :
  calculate_metrics now d = Ok m →
  m !! "avg_time_to_fill" =
    if jobs_empty d then None
    else
      let filled_jobs := filter (λ j, is_Some (days_to_fill j)) (jobs_df d) in
      Some match filled_jobs with
           | [] => MInt 0
           | _ => MFloat (mean (omap days_to_fill filled_jobs))
           end.
Proof.
  intros Hm. run_calculate_metrics Hm; rewrite ?lookup_insert_ne by done.
  - apply lookup_empty.
  - apply lookup_empty.
  - apply lookup_insert_eq.
  - apply lookup_insert_eq.
Qed.

Lemma lookup_total_candidates (now : Z) (d : dashboard)
    (m : gmap string metric) :
  calculate_metrics now d = Ok m →
  m !! "total_candidates" =
    if candidates_empty d then None
    else Some (MInt (Z.of_nat (length (candidates_df d)))).
Proof. intros Hm. run_calculate_metrics Hm; by simplify_map_eq. Qed.

Lemma lookup_candidates_this_month (now : Z) (d : dashboard)
    (m : gmap string metric) :
  calculate_metrics now d = Ok m →
  m !! "candidates_this_month" =
    if candidates_empty d then None
    else Some (MInt (Z.of_nat (length
           (filter (λ x, timestamp_ge (dateadded x) (now - thirty_days))
              (candidates_df d))))).
Proof. intros Hm. run_calculate_metrics Hm; by simplify_map_eq. Qed.

(** ** The pipeline on accepted inputs *)

Section PipelineFacts.
Context (to_datetime : conversion).

Lemma summarisable_preprocessable (jobs candidates : list record) :
  jobs_summarisable jobs = true →
  candidates_summarisable candidates = true →
  jobs_preprocessable jobs = true
  ∧ candidates_preprocessable candidates = true.
Proof.
  unfold jobs_summarisable, candidates_summarisable.
  unfold jobs_preprocessable, candidates_preprocessable.
  intros Hj Hc. split.
  - destruct (empty jobs); [done|].
    simpl in *. by apply andb_true_iff in Hj as [-> _].
  - destruct (empty candidates); [done|].
    simpl in *. by apply andb_true_iff in Hc as [-> _].
Qed.

Lemma existsb_overflows (deltas : list Z) :
  forallb fits_timedelta deltas = true → existsb overflows deltas = false.
Proof.
  induction deltas as [|delta deltas IH]; [done|]. simpl.
  intros [Hfit Hall]%andb_true_iff. rewrite (IH Hall), orb_false_r.
  unfold fits_timedelta in Hfit. apply bool_decide_eq_true in Hfit.
  unfold overflows. apply orb_false_iff. split; lia.
Qed.

Lemma subtract_dates_ok (jobs : list record) :
  dates_subtractable to_datetime jobs = true →
  subtract_dates to_datetime jobs = Ok ().
Proof.
  unfold dates_subtractable, subtract_dates.
  intros [-> Hfit]%andb_true_iff. simpl. by rewrite existsb_overflows.
Qed.

(** [_preprocess_data] returns on every preprocessable input. *)
Lemma _preprocess_data_eq (jobs candidates : list record) :
  jobs_preprocessable jobs = true →
  empty jobs || dates_subtractable to_datetime jobs = true →
  candidates_preprocessable candidates = true →
  _preprocess_data to_datetime jobs candidates
  = Ok (preprocessed to_datetime jobs candidates).
Proof.
  unfold jobs_preprocessable, candidates_preprocessable, _preprocess_data.
  unfold preprocessed, preprocess_jobs.
  intros Hj Hsub Hc.
  destruct (empty jobs) eqn:Hje; simpl in Hj, Hsub.
  - rewrite (raw_job_preprocess
               (to_datetime (column_values jobs "dateposted"))
               (to_datetime (column_values jobs "dateclosed"))) by done.
    simpl.
    destruct (empty candidates) eqn:Hce; simpl in Hc; [done|].
    by rewrite (column_ok _ _ Hc).
  - apply andb_true_iff in Hj as [Hclosed Hposted].
    rewrite (column_ok _ _ Hclosed), (column_ok _ _ Hposted). simpl.
    rewrite (subtract_dates_ok _ Hsub). simpl.
    destruct (empty candidates) eqn:Hce; simpl in Hc; [done|].
    by rewrite (column_ok _ _ Hc).
Qed.

Lemma jobs_empty_preprocess (jobs candidates : list record) :
  jobs_empty (preprocessed to_datetime jobs candidates) = empty jobs.
Proof.
  unfold jobs_empty, preprocessed, preprocess_jobs. simpl.
  by rewrite job_record_preprocess.
Qed.

Lemma candidates_empty_preprocess (jobs candidates : list record) :
  candidates_empty (preprocessed to_datetime jobs candidates)
  = empty candidates.
Proof.
  unfold candidates_empty, preprocessed, preprocess_candidates. simpl.
  destruct (empty candidates) eqn:He.
  - by rewrite candidate_record_raw.
  - by rewrite candidate_record_preprocess.
Qed.

Lemma candidate_records_preprocessed (jobs candidates : list record) :
  candidate_record <$> candidates_df (preprocessed to_datetime jobs candidates)
  = candidates.
Proof.
  unfold preprocessed, preprocess_candidates. simpl.
  destruct (empty candidates).
  - apply candidate_record_raw.
  - apply candidate_record_preprocess.
Qed.

Lemma dateadded_aware_preprocessed (jobs candidates : list record) :
  empty candidates = false →
  dateadded_aware (candidates_df (preprocessed to_datetime jobs candidates))
  = negb (naive_dateadded to_datetime candidates).
Proof.
  intros He. unfold preprocessed, preprocess_candidates, naive_dateadded.
  simpl. rewrite He, dateadded_aware_preprocess by by apply empty_nil.
  destruct (utc_offset to_datetime _) as [off|].
  - rewrite bool_decide_eq_true_2 by eauto.
    by rewrite bool_decide_eq_false_2.
  - rewrite bool_decide_eq_false_2 by (by intros [? ?]).
    by rewrite bool_decide_eq_true_2.
Qed.

(** [summary_metrics] returns on every summarisable input. *)
Lemma summary_metrics_returns (now : Z) (jobs candidates : list record) :
  jobs_summarisable jobs = true →
  empty jobs || dates_subtractable to_datetime jobs = true →
  candidates_summarisable candidates = true →
  empty candidates || naive_dateadded to_datetime candidates = true →
  ∃ m, summary_metrics to_datetime now jobs candidates = Ok m
       ∧ calculate_metrics now (preprocessed to_datetime jobs candidates)
         = Ok m.
Proof.
  intros Hj Hsub Hc Hnaive. unfold summary_metrics.
  destruct (summarisable_preprocessable jobs candidates Hj Hc) as [Hj' Hc'].
  rewrite _preprocess_data_eq by done. simpl.
  destruct (calculate_metrics_returns now
              (preprocessed to_datetime jobs candidates)) as [m Hm].
  - rewrite jobs_empty_preprocess. unfold preprocessed, preprocess_jobs. simpl.
    rewrite job_record_preprocess.
    unfold jobs_summarisable in Hj. destruct (empty jobs); [done|].
    simpl in *. by apply andb_true_iff in Hj as [_ ->].
  - rewrite candidates_empty_preprocess, candidate_records_preprocessed.
    unfold candidates_summarisable in Hc.
    destruct (empty candidates) eqn:He; [done|].
    rewrite dateadded_aware_preprocessed by done.
    simpl in *. rewrite Hnaive. simpl.
    by apply andb_true_iff in Hc as [_ ->].
  - eauto.
Qed.

Lemma timeline_of_preprocessed (jobs candidates : list record) :
  create_timeline_chart (preprocessed to_datetime jobs candidates)
  = groupby_size week (preprocess_candidates to_datetime candidates).
Proof.
  unfold create_timeline_chart, weekly_data.
  rewrite candidates_empty_preprocess.
  unfold preprocessed. simpl.
  destruct (empty candidates) eqn:He; [|done].
  unfold groupby_size, groupby, preprocess_candidates.
  by rewrite week_preprocess, empty_dateadded.
Qed.

Lemma days_to_fill_preprocess_jobs (jobs : list record) :
  forallb fits_timedelta (date_differences to_datetime jobs) = true →
  omap days_to_fill (preprocess_jobs to_datetime jobs)
  = (λ delta, delta / ns_per_day) <$> date_differences to_datetime jobs.
Proof.
  unfold preprocess_jobs, date_differences.
  generalize (to_datetime (column_values jobs "dateposted")) as read_posted.
  generalize (to_datetime (column_values jobs "dateclosed")) as read_closed.
  intros read_closed read_posted.
  induction jobs as [|r jobs IH]; [done|].
  rewrite fmap_cons. unfold omap in *. simpl.
  unfold to_datetime_coerce, timedelta, timedelta_days.
  destruct (cell r "dateclosed" ≫= read_closed) as [c|]; simpl; [|exact IH].
  destruct (cell r "dateposted" ≫= read_posted) as [p|]; simpl; [|exact IH].
  intros [-> Hall]%andb_true_iff. simpl. by rewrite (IH Hall).
Qed.
End PipelineFacts.

Lemma mean_spec (xs : list Z) :
  xs ≠ [] →
  (mean xs * inject_Z (Z.of_nat (length xs)) == inject_Z (foldr Z.add 0%Z xs))%Q.
Proof.
  intros Hne. unfold mean, sum_Z.
  rewrite Qmult_comm. apply Qmult_div_r.
  destruct xs as [|x xs]; [done|].
  unfold Qeq. simpl. lia.
Qed.

(** * The summary metrics *)

Section SummaryTheorems.
Context (to_datetime : conversion).

(** C1, amended: for every pair of empty jobs and candidates inputs
    (no records, or only records without fields) [summary_metrics]
    returns the empty mapping without raising, so no key is present;
    read with the default 0, as the dashboard reads it, every entry
    is 0. *)
Theorem summary_metrics_empty (now : Z) (jobs candidates : list record) :
  empty jobs = true → empty candidates = true →
  summary_metrics to_datetime now jobs candidates = Ok ∅
  ∧ ∀ key, metrics_get ∅ key = MInt 0.
Proof.
  intros Hj Hc. split; [|done].
  destruct (summary_metrics_returns to_datetime now jobs candidates)
    as (m & -> & Hm).
  { unfold jobs_summarisable. by rewrite Hj. }
  { by rewrite Hj. }
  { unfold candidates_summarisable. by rewrite Hc. }
  { by rewrite Hc. }
  unfold calculate_metrics in Hm.
  rewrite jobs_empty_preprocess, candidates_empty_preprocess, Hj, Hc in Hm.
  simpl in Hm. by injection Hm as <-.
Qed.

(** C5, amended: for every jobs input that has the [dateposted],
    [dateclosed] and [status] columns and whose two date columns can be
    subtracted (both with or both without a time zone, every difference
    within the range of a [Timedelta]), [avg_time_to_fill], read as the
    dashboard reads it, is the arithmetic mean, sum divided by number, of
    the whole-day differences [dateclosed - dateposted] of exactly the
    jobs whose two dates parse, and 0 when there is no such job; a job
    whose [dateclosed] is null or unreadable is left out of the mean. *)
Theorem avg_time_to_fill_mean_of_defined (now : Z)
    (jobs candidates : list record) :
  jobs_summarisable jobs = true →
  empty jobs || dates_subtractable to_datetime jobs = true →
  candidates_summarisable candidates = true →
  empty candidates || naive_dateadded to_datetime candidates = true →
  ∃ m, summary_metrics to_datetime now jobs candidates = Ok m
    ∧ (let days :=
         omap (λ r,
                 c ← cell r "dateclosed"
                       ≫= to_datetime (column_values jobs "dateclosed");
                 p ← cell r "dateposted"
                       ≫= to_datetime (column_values jobs "dateposted");
                 Some ((c - p) / 86400000000000)) jobs in
       (days = [] → metrics_get m "avg_time_to_fill" = MInt 0)
       ∧ (days ≠ [] →
          ∃ q, metrics_get m "avg_time_to_fill" = MFloat q
            ∧ (q * inject_Z (Z.of_nat (length days))
               == inject_Z (foldr Z.add 0%Z days))%Q)).
Proof.
  intros Hj Hsub Hc Hnaive.
  destruct (summary_metrics_returns to_datetime now jobs candidates
              Hj Hsub Hc Hnaive) as (m & Hsum & Hm).
  exists m. split; [exact Hsum|]. simpl.
  set (days := omap _ jobs).
  assert (omap days_to_fill (preprocess_jobs to_datetime jobs) = days)
    as Hdays.
  { subst days. destruct (empty jobs) eqn:Hje.
    - unfold preprocess_jobs. rewrite empty_days_to_fill by done.
      symmetry. by apply omap_empty.
    - simpl in Hsub. apply andb_true_iff in Hsub as [_ Hfit].
      rewrite days_to_fill_preprocess_jobs by done.
      unfold date_differences. symmetry. apply days_of_differences. }
  unfold metrics_get.
  rewrite (lookup_avg_time_to_fill _ _ _ Hm), jobs_empty_preprocess.
  change (jobs_df (preprocessed to_datetime jobs candidates))
    with (preprocess_jobs to_datetime jobs).
  destruct (empty jobs) eqn:Hje.
  - simpl. split; [done|]. intros Hne. exfalso. apply Hne.
    rewrite <- Hdays. unfold preprocess_jobs. by rewrite empty_days_to_fill.
  - simpl. rewrite omap_filter_is_Some, Hdays.
    destruct (filter _ _) eqn:Hf.
    + apply filter_is_Some_nil in Hf. rewrite Hdays in Hf.
      split; [done|]. by intros Hne.
    + assert (days ≠ []) as Hne.
      { intros Hnil. rewrite <- Hdays in Hnil.
        apply filter_is_Some_nil in Hnil. congruence. }
      split; [done|]. intros _. eexists. split; [done|].
      by apply mean_spec.
Qed.

Lemma days_to_fill_of_parsed_dates (jobs candidates : list record) (i : nat)
    (r : record) (posted closed : string) (p c : Z) :
  candidates_preprocessable candidates = true →
  dates_subtractable to_datetime jobs = true →
  jobs !! i = Some r →
  cell r "dateposted" = Some posted →
  to_datetime (column_values jobs "dateposted") posted = Some p →
  cell r "dateclosed" = Some closed →
  to_datetime (column_values jobs "dateclosed") closed = Some c →
  ∃ d j, _preprocess_data to_datetime jobs candidates = Ok d
    ∧ jobs_df d !! i = Some j
    ∧ job_record j = r
    ∧ days_to_fill j = Some ((c - p) / ns_per_day)
    ∧ ((c - p) / ns_per_day) * 86400000000000 ≤ c - p
      < ((c - p) / ns_per_day + 1) * 86400000000000.
Proof.
  intros Hc Hsub Hi Hposted Hp Hclosed Hcl.
  rewrite _preprocess_data_eq; [|unfold jobs_preprocessable| |done].
  - eexists _, _. split; [done|]. simpl. unfold preprocess_jobs.
    split; [by rewrite list_lookup_fmap, Hi|]. split; [done|]. split.
    + apply days_to_fill_preprocess_job. exists p, c.
      rewrite Hposted, Hclosed. split; [done|]. split; [done|].
      split; [|done].
      apply andb_true_iff in Hsub as [_ Hfit].
      assert (fits_timedelta (c - p) = true) as Hcp.
      { apply (forallb_elem_of _ _ _ Hfit), list_elem_of_omap. exists r.
        split; [by eapply list_elem_of_lookup_2|].
        rewrite Hclosed, Hposted. simpl. by rewrite Hcl, Hp. }
      by apply bool_decide_eq_true in Hcp.
    + pose proof (div_lower_bound (c - p) ((c - p) / ns_per_day)) as Hlo.
      pose proof (div_lower_bound (c - p) ((c - p) / ns_per_day + 1)) as Hhi.
      unfold ns_per_day in *. lia.
  - rewrite (has_column_lookup jobs i r _ _ Hi Hclosed).
    rewrite (has_column_lookup jobs i r _ _ Hi Hposted).
    apply orb_true_r.
  - rewrite Hsub. apply orb_true_r.
Qed.

Lemma count_this_month (now : Z) (candidates : list record) :
  length (filter (λ x, timestamp_ge (dateadded x) (now - thirty_days))
            (preprocess_candidates to_datetime candidates))
  = length (filter (λ t, now - 30 * 86400000000000 ≤ t)
              (parsed_dateadded to_datetime candidates)).
Proof.
  unfold preprocess_candidates, parsed_dateadded.
  by rewrite count_timestamp_ge, dateadded_preprocess.
Qed.

(** C9, amended: for every non-empty candidates input whose
    [dateadded] column is converted without a time zone,
    [candidates_this_month] is the number of candidates whose parsed
    [dateadded] is at or after [now - 30 days]; there is no upper bound
    at [now]. *)
Theorem candidates_this_month_since (now : Z)
    (jobs candidates : list record) :
  jobs_summarisable jobs = true →
  empty jobs || dates_subtractable to_datetime jobs = true →
  candidates_summarisable candidates = true →
  naive_dateadded to_datetime candidates = true →
  empty candidates = false →
  ∃ m, summary_metrics to_datetime now jobs candidates = Ok m
    ∧ m !! "candidates_this_month" =
        Some (MInt (Z.of_nat (length
          (filter (λ t, now - 30 * 86400000000000 ≤ t)
             (parsed_dateadded to_datetime candidates))))).
Proof.
  intros Hj Hsub Hc Hnaive Hne.
  destruct (summary_metrics_returns to_datetime now jobs candidates Hj Hsub Hc)
    as (m & Hsum & Hm); [rewrite Hnaive; apply orb_true_r|].
  exists m. split; [exact Hsum|].
  rewrite (lookup_candidates_this_month _ _ _ Hm).
  rewrite candidates_empty_preprocess, Hne.
  unfold preprocessed. simpl. rewrite Hne.
  by rewrite count_this_month.
Qed.
End SummaryTheorems.

(** C6, amended: for every job whose [dateposted] and [dateclosed] both
    parse, in a jobs input whose two date columns can be subtracted
    (both with or both without a time zone, every difference within the
    range of a [Timedelta]), [days_to_fill] is the whole number of days
    of [dateclosed - dateposted], rounded down; a job posted on
    2024-01-01 and closed on 2024-01-11 has [days_to_fill] 10. *)
Theorem days_to_fill_whole_days :
  (∀ (to_datetime : conversion)
     (jobs candidates : list record)
     (i : nat) (r : record) (posted closed : string) (p c : Z),
     candidates_preprocessable candidates = true →
     dates_subtractable to_datetime jobs = true →
     jobs !! i = Some r →
     cell r "dateposted" = Some posted →
     to_datetime (column_values jobs "dateposted") posted = Some p →
     cell r "dateclosed" = Some closed →
     to_datetime (column_values jobs "dateclosed") closed = Some c →
     ∃ d j, _preprocess_data to_datetime jobs candidates = Ok d
       ∧ jobs_df d !! i = Some j
       ∧ job_record j = r
       ∧ days_to_fill j = Some ((c - p) / ns_per_day)
       ∧ ((c - p) / ns_per_day) * 86400000000000 ≤ c - p
         < ((c - p) / ns_per_day + 1) * 86400000000000)
  ∧ (∃ d j, _preprocess_data iso_dates [job_filled_in_ten_days] [] = Ok d
       ∧ jobs_df d = [j]
       ∧ dateposted j = Some (midnight 2024 1 1)
       ∧ dateclosed j = Some (midnight 2024 1 11)
       ∧ days_to_fill j = Some 10).
Proof.
  split.
  - intros. by eapply days_to_fill_of_parsed_dates.
  - eexists _, _. split; [vm_compute; reflexivity|].
    repeat split; vm_compute; reflexivity.
Qed.

(** * The weekly timeline *)

Section TimelineTheorems.
Context (to_datetime : conversion).

(** C7: the timeline lists one (week, count) pair per week in which
    some candidate was added, the weeks strictly increasing (so never
    out of chronological order); week [w] runs from Monday 00:00, day
    [7 * w - 3] since 1970-01-01, to the following Monday, and its count
    is the number of candidates whose [dateadded], on the clock of the
    column's time zone, lies in that week. *)
Theorem weekly_counts_chronological (jobs candidates : list record) :
  jobs_preprocessable jobs = true →
  empty jobs || dates_subtractable to_datetime jobs = true →
  candidates_preprocessable candidates = true →
  ∃ d, _preprocess_data to_datetime jobs candidates = Ok d
    ∧ StronglySorted Z.lt (create_timeline_chart d).*1
    ∧ StronglySorted Z.le (create_timeline_chart d).*1
    ∧ ∀ w n, (w, n) ∈ create_timeline_chart d ↔
             n = length
                   (filter
                      (λ t, (7 * w - 3) * 86400000000000
                            ≤ t + default 0
                                    (utc_offset to_datetime
                                       (column_values candidates "dateadded"))
                            < (7 * w + 4) * 86400000000000)
                      (parsed_dateadded to_datetime candidates))
             ∧ n ≠ 0%nat.
Proof.
  intros Hj Hsub Hc. rewrite _preprocess_data_eq by done.
  eexists. split; [done|]. rewrite timeline_of_preprocessed.
  assert (StronglySorted Z.lt
            (groupby_size week
               (preprocess_candidates to_datetime candidates)).*1)
    as Hsorted.
  { rewrite groupby_size_keys. exact (unique_sorted_ascending _). }
  split; [exact Hsorted|]. split.
  { eapply StronglySorted_mono; [|exact Hsorted]. intros a b. lia. }
  intros w n. rewrite elem_of_groupby_size, elem_of_unique_sorted.
  unfold preprocess_candidates, parsed_dateadded.
  rewrite count_week, week_preprocess, list_elem_of_fmap.
  set (parsed := omap _ candidates).
  set (tz := utc_offset to_datetime _).
  assert (∀ w', filter (λ t, week_of (wall_clock tz t) = w') parsed
                = filter (λ t, (7 * w' - 3) * 86400000000000
                               ≤ t + default 0 tz
                               < (7 * w' + 4) * 86400000000000) parsed)
    as Hweek.
  { intros w'. apply list_filter_iff. intros t. apply week_of_spec. }
  rewrite <- Hweek.
  split.
  - intros [(t & -> & Hin) ->]. split; [done|].
    intros Hlen. apply length_zero_iff_nil in Hlen.
    assert (t ∈ filter (λ t', week_of (wall_clock tz t')
                             = week_of (wall_clock tz t)) parsed) as Hin'
      by (by apply list_elem_of_filter).
    rewrite Hlen in Hin'. by apply elem_of_nil in Hin'.
  - intros [-> Hne]. split; [|done].
    destruct (filter _ _) as [|t ts] eqn:Hf; [done|].
    assert (t ∈ filter (λ t', week_of (wall_clock tz t') = w) parsed) as Hin
      by (rewrite Hf; left).
    apply list_elem_of_filter in Hin as [<- Hin]. eauto.
Qed.

(** C10, amended: for every non-empty candidates input whose
    [dateadded] column is converted without a time zone,
    [total_candidates] counts every record; the weekly counts and
    [candidates_this_month] count only records whose [dateadded] parses;
    so the weekly counts add up to at most [total_candidates], with
    equality exactly when every [dateadded] parses. *)
Theorem weekly_counts_at_most_total (now : Z)
    (jobs candidates : list record) :
  jobs_summarisable jobs = true →
  empty jobs || dates_subtractable to_datetime jobs = true →
  candidates_summarisable candidates = true →
  naive_dateadded to_datetime candidates = true →
  empty candidates = false →
  ∃ d m, _preprocess_data to_datetime jobs candidates = Ok d
    ∧ calculate_metrics now d = Ok m
    ∧ m !! "total_candidates"
      = Some (MInt (Z.of_nat (length candidates)))
    ∧ sum_list (create_timeline_chart d).*2
      = length (parsed_dateadded to_datetime candidates)
    ∧ m !! "candidates_this_month"
      = Some (MInt (Z.of_nat (length
          (filter (λ t, now - 30 * 86400000000000 ≤ t)
             (parsed_dateadded to_datetime candidates)))))
    ∧ (sum_list (create_timeline_chart d).*2 ≤ length candidates)%nat
    ∧ (sum_list (create_timeline_chart d).*2 = length candidates ↔
       Forall (λ r, is_Some (cell r "dateadded"
                             ≫= to_datetime
                                  (column_values candidates "dateadded")))
         candidates).
Proof.
  intros Hj Hsub Hc Hnaive Hne.
  destruct (summary_metrics_returns to_datetime now jobs candidates Hj Hsub Hc)
    as (m & _ & Hm); [rewrite Hnaive; apply orb_true_r|].
  destruct (summarisable_preprocessable jobs candidates Hj Hc) as [Hj' Hc'].
  rewrite _preprocess_data_eq by done.
  eexists _, m. split; [done|]. split; [exact Hm|].
  assert (sum_list
            (create_timeline_chart
               (preprocessed to_datetime jobs candidates)).*2
          = length (parsed_dateadded to_datetime candidates)) as Hweeks.
  { rewrite timeline_of_preprocessed, groupby_size_sum.
    unfold preprocess_candidates, parsed_dateadded.
    rewrite week_preprocess. apply length_fmap. }
  split; [|split; [exact Hweeks|split; [|split]]].
  - rewrite (lookup_total_candidates _ _ _ Hm).
    rewrite candidates_empty_preprocess, Hne.
    unfold preprocessed. simpl. rewrite Hne.
    unfold preprocess_candidates. by rewrite length_fmap.
  - rewrite (lookup_candidates_this_month _ _ _ Hm).
    rewrite candidates_empty_preprocess, Hne.
    unfold preprocessed. simpl. rewrite Hne.
    by rewrite count_this_month.
  - rewrite Hweeks. apply length_omap_le.
  - rewrite Hweeks. apply length_omap_eq.
Qed.
End TimelineTheorems.

(** * The position table *)

Lemma ascending_take {K : Type} `{KeyOrder K} (n : nat) (ks : list K) :
  ascending ks → ascending (take n ks).
Proof.
  unfold ascending. intros Hs. rewrite <- (take_drop n ks) in Hs.
  by apply StronglySorted_app_1_l in Hs.
Qed.

(** C3, amended: [group_by_position] groups the jobs by title, one row
    per distinct title with the counts and mean of that title's jobs,
    lists the rows by ascending title, and returns at most 15 of them;
    when there are at most 15 distinct titles every title has its row. *)
Theorem position_metrics_by_title (d : dashboard) :
  has_column (job_record <$> jobs_df d) "title" = true →
  has_column (job_record <$> jobs_df d) "id" = true →
  has_column (job_record <$> jobs_df d) "status" = true →
  ∃ rows, position_metrics d = Ok rows
    ∧ ascending (Position.Position <$> rows)
    ∧ (length rows ≤ 15)%nat
    ∧ (∀ row, row ∈ rows →
         let g := filter (λ j, job_cell "title" j
                               = Some (Position.Position row)) (jobs_df d) in
         g ≠ []
         ∧ Position.Total_Jobs row = count_id g
         ∧ Position.Avg_Days_to_Fill row = mean_days_to_fill g
         ∧ Position.Open_Jobs row = count_open g)
    ∧ ((length (unique_sorted (omap (job_cell "title") (jobs_df d))) ≤ 15)%nat →
       ∀ j title, j ∈ jobs_df d → job_cell "title" j = Some title →
                  title ∈ Position.Position <$> rows).
Proof.
  intros Htitle Hid Hstatus. unfold position_metrics.
  rewrite (column_ok _ _ Htitle), (column_ok _ _ Hid), (column_ok _ _ Hstatus).
  simpl. eexists. split; [done|].
  set (mk := λ '(title, g),
       {| Position.Position := title; Position.Total_Jobs := count_id g;
          Position.Avg_Days_to_Fill := mean_days_to_fill g;
          Position.Open_Jobs := count_open g |}).
  assert (Position.Position <$> (mk <$> groupby (job_cell "title") (jobs_df d))
          = unique_sorted (omap (job_cell "title") (jobs_df d))) as Hkeys.
  { rewrite <- groupby_keys, <- list_fmap_compose.
    apply list_fmap_ext. by intros _ [k g] _. }
  split; [|split; [|split]].
  - rewrite fmap_take, Hkeys.
    apply ascending_take, unique_sorted_ascending.
  - rewrite length_take. lia.
  - intros row Hrow. apply subseteq_take in Hrow.
    apply list_elem_of_fmap in Hrow as ([k g] & -> & Hin).
    apply elem_of_groupby in Hin as [-> Hk]. simpl.
    split; [|done].
    apply elem_of_unique_sorted, list_elem_of_omap in Hk as (j & Hj & Hjk).
    intros Hnil.
    assert (j ∈ filter (λ j, job_cell "title" j = Some k) (jobs_df d)) as Hjin
      by (by apply list_elem_of_filter).
    rewrite Hnil in Hjin. by apply elem_of_nil in Hjin.
  - intros Hlen j title Hj Hjt.
    rewrite take_ge.
    + rewrite Hkeys. apply elem_of_unique_sorted, list_elem_of_omap. eauto.
    + rewrite <- Hkeys in Hlen. by rewrite length_fmap in Hlen.
Qed.

(** * The recruiter table *)

Section MergeFacts.
Context {K : Type} `{EqDecision K} `{KeyOrder K}.

Lemma assoc_fmap {A : Type} (f : K → A) (k : K) (ks : list K) :
  assoc k ((λ k', (k', f k')) <$> ks)
  = if decide (k ∈ ks) then Some (f k) else None.
Proof.
  induction ks as [|k' ks IH].
  - simpl.
    destruct (decide (k ∈ [])) as [Hin|]; [by apply elem_of_nil in Hin|done].
  - rewrite fmap_cons. cbn [assoc].
    destruct (decide (k' = k)) as [->|Hne].
    + rewrite decide_True; [done|left].
    + rewrite IH. destruct (decide (k ∈ ks)).
      * rewrite decide_True; [done|by right].
      * rewrite decide_False; [done|].
        rewrite elem_of_cons. by intros [->|Hin].
Qed.

Lemma merge_outer_keys {A B : Type} (l : list (K * A)) (r : list (K * B)) :
  (merge_outer l r).*1 = unique_sorted (l.*1 ++ r.*1).
Proof.
  unfold merge_outer. rewrite <- list_fmap_compose. apply list_fmap_id.
Qed.
End MergeFacts.

Lemma filter_no_key {R K : Type} `{EqDecision K} (key : R → option K)
    (rows : list R) (k : K) :
  k ∉ omap key rows → filter (λ r, key r = Some k) rows = [].
Proof.
  intros Hk. induction rows as [|r rows IH]; [done|].
  rewrite filter_cons. destruct (decide (key r = Some k)) as [Hr|_].
  - exfalso. apply Hk, list_elem_of_omap. exists r. split; [left|done].
  - apply IH. intros Hin. apply Hk.
    apply list_elem_of_omap in Hin as (r' & ? & ?).
    apply list_elem_of_omap. exists r'. split; [by right|done].
Qed.

(** The per-recruiter job table, row by row. *)
Lemma recruiter_jobs_table (jobs : list job) :
  prod_map id (λ g, (count_id g, mean_days_to_fill g))
    <$> groupby (job_cell "recruiter") jobs
  = (λ k, (k, (count_id (filter (λ j, job_cell "recruiter" j = Some k) jobs),
               mean_days_to_fill
                 (filter (λ j, job_cell "recruiter" j = Some k) jobs))))
      <$> unique_sorted (omap (job_cell "recruiter") jobs).
Proof. unfold groupby. by rewrite <- list_fmap_compose. Qed.

Lemma recruiter_candidates_table (candidates : list candidate) :
  groupby_size (candidate_cell "recruiter") candidates
  = (λ k, (k, length (filter (λ x, candidate_cell "recruiter" x = Some k)
                        candidates)))
      <$> unique_sorted (omap (candidate_cell "recruiter") candidates).
Proof. unfold groupby_size, groupby. by rewrite <- list_fmap_compose. Qed.

(** C2: [group_by_recruiter] is the full outer join, on the recruiter,
    of the per-recruiter job aggregates and candidate counts, a missing
    side filled with zero, cut to its first 10 rows, and the chart draws
    the efficiency [total_candidates / (total_jobs + 1)] of these rows;
    with two jobs and five candidates for Recruiter A and three
    candidates and no job for Recruiter B, B is listed with efficiency 3
    and A has 5/3. *)
Theorem recruiter_metrics_outer_join :
  (∀ d : dashboard,
     has_column (job_record <$> jobs_df d) "recruiter" = true →
     has_column (job_record <$> jobs_df d) "id" = true →
     has_column (candidate_record <$> candidates_df d) "recruiter" = true →
     ∃ merged,
       recruiter_merged d = Ok merged
       ∧ recruiter_metrics d = Ok (take 10 merged)
       ∧ (∃ t1 t2 t3,
            create_recruiter_metrics_chart d
            = Ok [t1; t2; t3;
                  {| trace_name := "Efficiency";
                     trace_x := Recruiter.Recruiter <$> take 10 merged;
                     trace_y :=
                       (λ r, Some (efficiency r)) <$> take 10 merged |}])
       ∧ ascending (Recruiter.Recruiter <$> merged)
       ∧ (∀ k, k ∈ Recruiter.Recruiter <$> merged ↔
               (∃ j, j ∈ jobs_df d ∧ job_cell "recruiter" j = Some k)
               ∨ (∃ x, x ∈ candidates_df d
                       ∧ candidate_cell "recruiter" x = Some k))
       ∧ (∀ row, row ∈ merged →
            let k := Recruiter.Recruiter row in
            let jobs := filter (λ j, job_cell "recruiter" j = Some k)
                          (jobs_df d) in
            let candidates :=
              filter (λ x, candidate_cell "recruiter" x = Some k)
                (candidates_df d) in
            Recruiter.Total_Jobs row = count_id jobs
            ∧ Recruiter.Total_Candidates row = length candidates
            ∧ Recruiter.Avg_Days_to_Fill row
              = default 0%Q (mean_days_to_fill jobs)
            ∧ (jobs = [] →
               Recruiter.Total_Jobs row = 0%nat
               ∧ Recruiter.Avg_Days_to_Fill row = 0%Q)
            ∧ (candidates = [] → Recruiter.Total_Candidates row = 0%nat)
            ∧ efficiency row
              = Qdiv (Q_of_nat (Recruiter.Total_Candidates row))
                     (Q_of_nat (Recruiter.Total_Jobs row) + 1)%Q))
  ∧ (∃ a b,
       (d ← _preprocess_data iso_dates jobs_of_A candidates_of_A_and_B;
        recruiter_metrics d) = Ok [a; b]
       ∧ Recruiter.Recruiter a = "Recruiter A"
       ∧ Recruiter.Total_Jobs a = 2%nat
       ∧ Recruiter.Total_Candidates a = 5%nat
       ∧ Qeq (efficiency a) (5 # 3)
       ∧ Recruiter.Recruiter b = "Recruiter B"
       ∧ Recruiter.Total_Jobs b = 0%nat
       ∧ Recruiter.Total_Candidates b = 3%nat
       ∧ Qeq (efficiency b) (3 # 1)).
Proof.
  split.
  - intros d Hrec Hid Hcrec. unfold recruiter_metrics, recruiter_merged.
    unfold recruiter_jobs, recruiter_candidates.
    rewrite (column_ok _ _ Hrec), (column_ok _ _ Hid), (column_ok _ _ Hcrec).
    simpl. eexists. split; [done|]. split; [done|]. split.
    { unfold create_recruiter_metrics_chart, jobs_empty, candidates_empty.
      rewrite (empty_has_column _ _ Hrec), (empty_has_column _ _ Hcrec).
      unfold recruiter_metrics, recruiter_merged.
      unfold recruiter_jobs, recruiter_candidates.
      rewrite (column_ok _ _ Hrec), (column_ok _ _ Hid), (column_ok _ _ Hcrec).
      simpl. by eexists _, _, _. }
    rewrite recruiter_jobs_table, recruiter_candidates_table.
    pose (jobs_of := λ k, filter (λ j, job_cell "recruiter" j = Some k)
                            (jobs_df d)).
    pose (candidates_of :=
            λ k, filter (λ x, candidate_cell "recruiter" x = Some k)
                   (candidates_df d)).
    set (L := _ <$> unique_sorted (omap (job_cell "recruiter") (jobs_df d))).
    set (R := _ <$> unique_sorted
                      (omap (candidate_cell "recruiter") (candidates_df d))).
    assert (L.*1 = unique_sorted (omap (job_cell "recruiter") (jobs_df d)))
      as HL by (unfold L; rewrite <- list_fmap_compose; apply list_fmap_id).
    assert (R.*1 = unique_sorted
                     (omap (candidate_cell "recruiter") (candidates_df d)))
      as HR by (unfold R; rewrite <- list_fmap_compose; apply list_fmap_id).
    assert (Recruiter.Recruiter <$> (fillna_row <$> merge_outer L R)
            = unique_sorted (L.*1 ++ R.*1)) as Hkeys.
    { rewrite <- merge_outer_keys, <- list_fmap_compose.
      apply list_fmap_ext. by intros _ [k [a b]] _. }
    split; [|split].
    + rewrite Hkeys. apply unique_sorted_ascending.
    + intros k. rewrite Hkeys, elem_of_unique_sorted, elem_of_app, HL, HR.
      rewrite !elem_of_unique_sorted, !list_elem_of_omap. done.
    + intros row Hrow.
      apply list_elem_of_fmap in Hrow as ([k [a b]] & -> & Hin).
      unfold merge_outer in Hin.
      apply list_elem_of_fmap in Hin as (k' & [= -> -> ->] & _).
      unfold L, R. rewrite !assoc_fmap. simpl.
      fold (jobs_of k') (candidates_of k').
      assert (k' ∉ unique_sorted (omap (job_cell "recruiter") (jobs_df d)) →
              jobs_of k' = []) as Hnojob.
      { rewrite elem_of_unique_sorted. apply filter_no_key. }
      assert (k' ∉ unique_sorted
                     (omap (candidate_cell "recruiter") (candidates_df d)) →
              candidates_of k' = []) as Hnocand.
      { rewrite elem_of_unique_sorted. apply filter_no_key. }
      destruct (decide (k' ∈ unique_sorted
                          (omap (job_cell "recruiter") (jobs_df d))))
        as [Hj|Hj]; [|rewrite (Hnojob Hj)];
        (destruct (decide (k' ∈ unique_sorted
                             (omap (candidate_cell "recruiter")
                                (candidates_df d)))) as [Hc|Hc];
         [|rewrite (Hnocand Hc)]);
        simpl; repeat split; try done;
        first [ intros Hnil; by rewrite Hnil
              | match goal with Hnil : _ = [] |- _ => by rewrite Hnil end ].
  - eexists _, _. split; [vm_compute; reflexivity|].
    repeat split; vm_compute; reflexivity.
Qed.

(** * Preprocessing and absent date columns *)

(** Whenever no job carries the [dateclosed] key, preprocessing raises. *)
Lemma preprocess_raises_on_absent_dateclosed
    (to_datetime : conversion)
    (jobs candidates : list record) :
  empty jobs = false → has_column jobs "dateclosed" = false →
  _preprocess_data to_datetime jobs candidates = Raise (KeyError "dateclosed").
Proof.
  intros Hne Hcol. unfold _preprocess_data, column. by rewrite Hne, Hcol.
Qed.

(** C4 (the code departs from the specification): an open job whose
    record has no [dateclosed] key makes [_preprocess_data] raise
    [KeyError], for every parser: the conversion is guarded by
    [col in columns], the subtraction is not. *)
Theorem preprocess_raises_without_dateclosed
    (to_datetime : conversion) :
  _preprocess_data to_datetime [open_job_without_dateclosed] []
  = Raise (KeyError "dateclosed").
Proof. reflexivity. Qed.

(** * The connector *)

Lemma fetch_degrades (srv : server) (c : connector) (path : string)
    (query : list (string * param)) (key what : string) :
  fetch_fails srv c path query → degraded (fetch srv c path query key what).
Proof.
  unfold fetch_fails, fetch, degraded, raises_request_exception.
  destruct (truthy (auth_token c)).
  - intros [e ->]. simpl. by split.
  - unfold authenticate. intros [[e ->]|(m & -> & e & He)]; simpl.
    + done.
    + rewrite He. simpl. done.
Qed.

(** C8, amended: for each fetch operation, a failure that [requests]
    raises as a [RequestException] (no connection, an error status such
    as a rejected login, a body that is not JSON), whether during
    authentication or during the fetch, yields an empty sequence and a
    printed error, and no exception. *)
Theorem fetch_operations_degrade (srv : server) (c : connector) :
  (∀ status limit,
     fetch_fails srv c "/connect/jobs" (jobs_query status limit) →
     degraded (get_jobs srv c status limit))
  ∧ (∀ job_id limit,
       fetch_fails srv c "/connect/candidates"
         (candidates_query job_id limit) →
       degraded (get_candidates srv c job_id limit))
  ∧ (∀ job_id,
       fetch_fails srv c ("/connect/jobs/" ++ job_id ++ "/workflow") [] →
       degraded (get_workflow_steps srv c job_id)).
Proof. repeat split; intros; by apply fetch_degrades. Qed.

(** * Where the code departs from the specification *)

(** C1 as stated fails: on the empty inputs the summary has no entry, so
    the counts are not 0 in the mapping and there is no "N/A". *)
Lemma summary_metrics_empty_has_no_entries :
  summary_metrics iso_dates 0 [] [] = Ok ∅
  ∧ ¬ ∃ m, summary_metrics iso_dates 0 [] [] = Ok m
           ∧ m !! "total_jobs" = Some (MInt 0)
           ∧ m !! "open_jobs" = Some (MInt 0)
           ∧ m !! "closed_jobs" = Some (MInt 0)
           ∧ m !! "total_candidates" = Some (MInt 0)
           ∧ m !! "avg_time_to_fill" = Some (MInt 0)
           ∧ m !! "top_source" = Some (MStr "N/A").
Proof.
  split; [reflexivity|].
  intros (m & Hm & Htotal & _).
  change (Ok (∅ : gmap string metric) = Ok m) in Hm.
  injection Hm as <-. by rewrite lookup_empty in Htotal.
Qed.

(** C3 as stated fails: with sixteen titles listed from "p" down to "a",
    "p" twice, the rows are "a" to "o": not in order of first appearance,
    and without "p", the title with the most jobs. *)
Lemma position_metrics_sorted_by_title :
  ∃ rows,
    (d ← _preprocess_data iso_dates sixteen_titles [];
     position_metrics d) = Ok rows
    ∧ Position.Position <$> rows
      = ["a"; "b"; "c"; "d"; "e"; "f"; "g"; "h"; "i"; "j"; "k"; "l"; "m";
         "n"; "o"]
    ∧ ¬ in_order_of_first_appearance sixteen_titles rows
    ∧ ¬ keeps_highest_counts sixteen_titles rows.
Proof.
  eexists. split; [vm_compute; reflexivity|].
  split; [vm_compute; reflexivity|]. split.
  - intros Horder.
    assert (16 < 15)%nat as Hlt; [|lia].
    eapply (Horder 0%nat 1%nat);
      [lia|reflexivity|reflexivity|vm_compute; reflexivity..].
  - intros Hcount.
    assert (count_title "p" sixteen_titles ≤ 1)%nat as Hle.
    { apply (Hcount "p"
               {| Position.Position := "a"; Position.Total_Jobs := 1;
                  Position.Avg_Days_to_Fill := None;
                  Position.Open_Jobs := 1 |}); [apply list_elem_of_here|].
      intros Hin. vm_compute in Hin.
      repeat (apply elem_of_cons in Hin as [Hin|Hin]; [discriminate Hin|]).
      by apply elem_of_nil in Hin. }
    vm_compute in Hle. lia.
Qed.

(** C8 as stated fails: a 200 answer whose JSON body is an array makes
    [get_jobs] raise [AttributeError]; nothing is returned or printed. *)
Lemma get_jobs_raises_on_array_body :
  returned (get_jobs array_server logged_in_connector "open" 100)
  = Raise (AttributeError "get")
  ∧ ¬ degraded (get_jobs array_server logged_in_connector "open" 100).
Proof.
  split; [reflexivity|]. by intros [Hreturned _].
Qed.

(** C9 as stated fails: on 2024-01-15 a candidate dated 2024-03-01 is
    counted, although the date is not between [now - 30 days] and [now]. *)
Lemma candidates_this_month_counts_future_dates :
  ∃ m, summary_metrics iso_dates (midnight 2024 1 15) []
         [candidate_of_march] = Ok m
    ∧ m !! "candidates_this_month" = Some (MInt 1)
    ∧ candidates_in_last_30_days iso_dates (midnight 2024 1 15)
        [candidate_of_march] = 0%nat
    ∧ m !! "candidates_this_month"
      ≠ Some (MInt (Z.of_nat
          (candidates_in_last_30_days iso_dates (midnight 2024 1 15)
             [candidate_of_march]))).
Proof.
  eexists. split; [vm_compute; reflexivity|].
  split; [vm_compute; reflexivity|].
  split; [vm_compute; reflexivity|].
  vm_compute. discriminate.
Qed.

(** C5 as stated fails: both dates of this job parse, yet no summary,
    and so no [avg_time_to_fill], is produced, because a date column with
    a time zone cannot be subtracted from one without; the same holds
    when the difference of the two dates overflows an int64. *)
Lemma avg_time_to_fill_raises_for_parsed_dates :
  is_Some (zulu_dates (column_values [job_closed_in_utc] "dateposted")
             "2024-01-01")
  ∧ is_Some (zulu_dates (column_values [job_closed_in_utc] "dateclosed")
               "2024-01-11T00:00:00Z")
  ∧ summary_metrics zulu_dates 0 [job_closed_in_utc] []
    = Raise (TypeError "-")
  ∧ summary_metrics iso_dates 0 [job_of_five_centuries] []
    = Raise OverflowError
  ∧ ¬ (∃ m, summary_metrics zulu_dates 0 [job_closed_in_utc] [] = Ok m).
Proof.
  split; [vm_compute; eauto|]. split; [vm_compute; eauto|].
  split; [vm_compute; reflexivity|]. split; [vm_compute; reflexivity|].
  intros [m Hm]. vm_compute in Hm. discriminate.
Qed.

(** C6 as stated fails: the two dates of each of these jobs parse, yet
    preprocessing raises and no [days_to_fill] is derived: [TypeError]
    when only one of the two date columns has a time zone,
    [OverflowError] when the difference does not fit an int64. *)
Lemma days_to_fill_raises_for_parsed_dates :
  zulu_dates (column_values [job_closed_in_utc] "dateposted") "2024-01-01"
  = Some (midnight 2024 1 1)
  ∧ zulu_dates (column_values [job_closed_in_utc] "dateclosed")
      "2024-01-11T00:00:00Z"
    = Some (midnight 2024 1 11)
  ∧ _preprocess_data zulu_dates [job_closed_in_utc] []
    = Raise (TypeError "-")
  ∧ iso_dates (column_values [job_of_five_centuries] "dateposted")
      "1700-01-01"
    = Some (midnight 1700 1 1)
  ∧ iso_dates (column_values [job_of_five_centuries] "dateclosed")
      "2200-01-01"
    = Some (midnight 2200 1 1)
  ∧ _preprocess_data iso_dates [job_of_five_centuries] []
    = Raise OverflowError.
Proof. repeat split; vm_compute; reflexivity. Qed.

(** C10 as stated fails: for a candidate whose [dateadded] carries a
    time zone the summary raises [TypeError] at the comparison with
    [datetime.now()], so neither [total_candidates] nor
    [candidates_this_month] is produced. *)
Lemma total_candidates_raises_with_time_zone :
  empty [candidate_added_in_utc] = false
  ∧ summary_metrics zulu_dates (midnight 2024 1 15) []
      [candidate_added_in_utc]
    = Raise (TypeError ">=")
  ∧ ¬ (∃ m, summary_metrics zulu_dates (midnight 2024 1 15) []
              [candidate_added_in_utc] = Ok m
            ∧ m !! "total_candidates" = Some (MInt 1)).
Proof.
  split; [vm_compute; reflexivity|]. split; [vm_compute; reflexivity|].
  intros (m & Hm & _). vm_compute in Hm. discriminate.
Qed.

(** * The theorems at concrete inputs *)

Lemma summary_metrics_empty_witness :
  summary_metrics iso_dates 0 [] [∅] = Ok ∅
  ∧ ∀ key, metrics_get ∅ key = MInt 0.
Proof.
  apply (summary_metrics_empty iso_dates 0 [] [∅]);
    vm_compute; reflexivity.
Defined.

Lemma avg_time_to_fill_mean_of_defined_witness :
  ∃ m q, summary_metrics iso_dates 0
           [job_filled_in_ten_days; titled_job "J2" "Analyst"] [] = Ok m
    ∧ metrics_get m "avg_time_to_fill" = MFloat q
    ∧ (q == 10)%Q.
Proof.
  destruct (avg_time_to_fill_mean_of_defined iso_dates 0
              [job_filled_in_ten_days; titled_job "J2" "Analyst"] [])
    as (m & Hm & _ & Havg); [vm_compute; reflexivity..|].
  destruct Havg as (q & Hq & Hmean); [vm_compute; discriminate|].
  exists m, q. split; [exact Hm|]. split; [exact Hq|].
  match type of Hmean with
  | context [omap ?f ?l] =>
      replace (omap f l) with [10] in Hmean by (vm_compute; reflexivity)
  end.
  simpl in Hmean. rewrite Qmult_1_r in Hmean. exact Hmean.
Defined.

Lemma days_to_fill_whole_days_witness :
  ∃ d j, _preprocess_data iso_dates [job_filled_in_ten_days] [] = Ok d
    ∧ jobs_df d !! 0%nat = Some j
    ∧ job_record j = job_filled_in_ten_days
    ∧ days_to_fill j = Some 10.
Proof.
  destruct (proj1 days_to_fill_whole_days iso_dates
              [job_filled_in_ten_days] [] 0%nat job_filled_in_ten_days
              "2024-01-01" "2024-01-11"
              (midnight 2024 1 1) (midnight 2024 1 11))
    as (d & j & Hd & Hj & Hr & Hdays & _); [vm_compute; reflexivity..|].
  exists d, j. split; [exact Hd|]. split; [exact Hj|]. split; [exact Hr|].
  exact Hdays.
Defined.

Lemma weekly_counts_chronological_witness :
  ∃ d, _preprocess_data iso_dates [] candidates_of_two_weeks = Ok d
    ∧ create_timeline_chart d = [(2818, 2%nat); (2819, 1%nat)]
    ∧ StronglySorted Z.lt (create_timeline_chart d).*1.
Proof.
  destruct (weekly_counts_chronological iso_dates []
              candidates_of_two_weeks)
    as (d & Hd & Hsorted & _); [vm_compute; reflexivity..|].
  exists d. split; [exact Hd|]. split; [|exact Hsorted].
  vm_compute in Hd. injection Hd as <-. vm_compute. reflexivity.
Defined.

Lemma candidates_this_month_since_witness :
  ∃ m, summary_metrics iso_dates (midnight 2024 1 15) []
         [candidate_of_march] = Ok m
    ∧ m !! "candidates_this_month" = Some (MInt 1).
Proof.
  apply (candidates_this_month_since iso_dates (midnight 2024 1 15) []
           [candidate_of_march]); vm_compute; reflexivity.
Defined.

Lemma weekly_counts_at_most_total_witness :
  ∃ d m,
    _preprocess_data iso_dates [] candidates_with_unreadable_dates = Ok d
    ∧ calculate_metrics (midnight 2024 1 15) d = Ok m
    ∧ m !! "total_candidates" = Some (MInt 4)
    ∧ m !! "candidates_this_month" = Some (MInt 2)
    ∧ sum_list (create_timeline_chart d).*2 = 2%nat.
Proof.
  destruct (weekly_counts_at_most_total iso_dates (midnight 2024 1 15)
              [] candidates_with_unreadable_dates)
    as (d & m & Hd & Hm & Htotal & Hsum & Hmonth & _);
    [vm_compute; reflexivity..|].
  exists d, m. split; [exact Hd|]. split; [exact Hm|].
  split; [exact Htotal|]. split; [exact Hmonth|exact Hsum].
Defined.

Lemma position_metrics_by_title_witness :
  ∃ rows,
    position_metrics
      {| jobs_df := preprocess_jobs iso_dates sixteen_titles;
         candidates_df := [] |} = Ok rows
    ∧ (length rows ≤ 15)%nat.
Proof.
  destruct (position_metrics_by_title
              {| jobs_df := preprocess_jobs iso_dates sixteen_titles;
                 candidates_df := [] |})
    as (rows & Hrows & _ & Hlen & _); [vm_compute; reflexivity..|].
  exists rows. split; [exact Hrows|exact Hlen].
Defined.

Lemma recruiter_metrics_outer_join_witness :
  ∃ merged,
    recruiter_metrics
      {| jobs_df := preprocess_jobs iso_dates jobs_of_A;
         candidates_df :=
           preprocess_candidates iso_dates candidates_of_A_and_B |}
    = Ok (take 10 merged)
    ∧ ("Recruiter B" ∈ Recruiter.Recruiter <$> merged).
Proof.
  destruct (proj1 recruiter_metrics_outer_join
              {| jobs_df := preprocess_jobs iso_dates jobs_of_A;
                 candidates_df :=
                   preprocess_candidates iso_dates candidates_of_A_and_B |})
    as (merged & _ & Hmetrics & _ & _ & Hkeys & _);
    [vm_compute; reflexivity..|].
  exists merged. split; [exact Hmetrics|].
  apply Hkeys. right.
  exists (preprocess_candidate None iso_to_datetime
            (recruited_candidate "C6" "Recruiter B")).
  split; [|vm_compute; reflexivity].
  do 5 apply list_elem_of_further. apply list_elem_of_here.
Defined.

Lemma fetch_operations_degrade_witness :
  degraded (get_jobs unreachable fresh_connector "open" 100).
Proof.
  apply (proj1 (fetch_operations_degrade unreachable fresh_connector)).
  left. eexists. reflexivity.
Defined.

(** * More of the connector *)

(** Every operation is an instance of [fetch]. *)
Lemma run_is_fetch (op : operation) :
  ∃ path query what,
    (∀ srv c, run srv c op
              = fetch srv c path query (operation_key op) what)
    ∧ ∀ c, operation_request c op = get_request c path query.
Proof. destruct op; simpl; eexists _, _, _; split; reflexivity. Qed.

(** [fetch] when a token is stored. *)
Lemma fetch_with_token (srv : server) (c : connector) (path : string)
    (query : list (string * param)) (key what : string) :
  truthy (auth_token c) = true →
  fetch srv c path query key what
  = match exchange srv (get_request c path query) with
    | inr data =>
        {| returned := json_get data key (JArr []); after := c;
           printed := [] |}
    | inl e =>
        {| returned := Ok (JArr []); after := c;
           printed := ["Error fetching " ++ what ++ ": " ++ e] |}
    end.
Proof. unfold fetch. intros ->. by destruct (exchange _ _). Qed.

(** [fetch] when no token is stored. *)
Lemma fetch_without_token (srv : server) (c : connector) (path : string)
    (query : list (string * param)) (key what : string) :
  truthy (auth_token c) = false →
  fetch srv c path query key what
  = match exchange srv (auth_request c) with
    | inl e =>
        {| returned := Ok (JArr []); after := c;
           printed := ["Authentication failed: " ++ e] |}
    | inr (JObj m) =>
        let c' := with_token c (default JNull (m !! "access_token")) in
        match exchange srv (get_request c' path query) with
        | inr data =>
            {| returned := json_get data key (JArr []); after := c';
               printed := [] |}
        | inl e =>
            {| returned := Ok (JArr []); after := c';
               printed := ["Error fetching " ++ what ++ ": " ++ e] |}
        end
    | inr _ =>
        {| returned := Raise (AttributeError "get"); after := c;
           printed := [] |}
    end.
Proof.
  unfold fetch, authenticate. intros ->.
  by destruct (exchange srv (auth_request c)) as [e|[]].
Qed.

Lemma json_get_raises (data : json) (key : string) (dflt : json) (e : exn) :
  json_get data key dflt = Raise e ↔
  e = AttributeError "get" ∧ ∀ m, data ≠ JObj m.
Proof.
  destruct data as [|b|n|s|l|m]; simpl.
  1-5: split; [intros [= <-]; split; [done|intros m; discriminate]
              |by intros [-> _]].
  split; [done|]. intros [_ Hm]. by destruct (Hm m).
Qed.

Lemma fetch_raises_iff (srv : server) (c : connector) (path : string)
    (query : list (string * param)) (key what : string) (e : exn) :
  returned (fetch srv c path query key what) = Raise e ↔
  e = AttributeError "get"
  ∧ if truthy (auth_token c)
    then answers_non_object srv (get_request c path query)
    else answers_non_object srv (auth_request c)
         ∨ ∃ m, exchange srv (auth_request c) = inr (JObj m)
                ∧ answers_non_object srv
                    (get_request
                       (with_token c (default JNull (m !! "access_token")))
                       path query).
Proof.
  unfold answers_non_object.
  destruct (truthy (auth_token c)) eqn:Htoken.
  - rewrite fetch_with_token by done.
    destruct (exchange srv (get_request c path query)) as [msg|data]; simpl.
    + split; [done|]. by intros (_ & data & ? & _).
    + rewrite json_get_raises. split.
      * intros [-> Hdata]. eauto.
      * intros (-> & data' & [= <-] & Hdata). done.
  - rewrite fetch_without_token by done.
    destruct (exchange srv (auth_request c)) as [msg|data]; simpl.
    + split; [done|].
      intros (_ & [(data & ? & _)|(m & ? & _)]); done.
    + destruct data; simpl;
        try (split;
             [intros [= <-]; split; [done|]; left; eexists; by split
             |by intros [-> _]]).
      set (c' := with_token c (default JNull (m !! "access_token"))).
      destruct (exchange srv (get_request c' path query)) as [msg|data] eqn:Hx;
        simpl.
      * split; [done|].
        intros (_ & [(data & [= <-] & Hm)|(m' & [= <-] & data & Hd & _)]).
        -- by destruct (Hm m).
        -- fold c' in Hd. congruence.
      * rewrite json_get_raises. split.
        -- intros [-> Hdata]. split; [done|]. right. exists m.
           split; [done|]. fold c'. eauto.
        -- intros (-> & [(data' & [= <-] & Hm)
                        |(m' & [= <-] & data' & Hd & Hdata)]).
           ++ by destruct (Hm m).
           ++ fold c' in Hd. rewrite Hx in Hd. injection Hd as <-. done.
Qed.

(** X1: the only exception a fetch operation lets through is the
    [AttributeError] of [.get] on a decoded body that is not an object,
    and it is raised exactly when the token request or the GET is
    answered with such a body. *)
Theorem run_raises_iff (srv : server) (c : connector) (op : operation)
    (e : exn) :
  returned (run srv c op) = Raise e ↔
  e = AttributeError "get"
  ∧ if truthy (auth_token c)
    then answers_non_object srv (operation_request c op)
    else answers_non_object srv (auth_request c)
         ∨ ∃ m, exchange srv (auth_request c) = inr (JObj m)
                ∧ answers_non_object srv
                    (operation_request
                       (with_token c (default JNull (m !! "access_token")))
                       op).
Proof.
  destruct op; simpl;
    unfold get_jobs, get_candidates, get_workflow_steps;
    apply fetch_raises_iff.
Qed.

(** X2: with a stored token an operation does not authenticate: its
    result is decided by the answer to its own GET alone, and the
    connector is left as it was. *)
Theorem run_with_token_skips_login (srv1 srv2 : server) (c : connector)
    (op : operation) :
  truthy (auth_token c) = true →
  srv1 (operation_request c op) = srv2 (operation_request c op) →
  run srv1 c op = run srv2 c op ∧ after (run srv1 c op) = c.
Proof.
  intros Htoken Hsame.
  destruct (run_is_fetch op) as (path & query & what & Hrun & Hrq).
  rewrite !Hrun, !fetch_with_token by done.
  rewrite Hrq in Hsame. unfold exchange. rewrite Hsame.
  split; [done|].
  destruct (srv2 _) as [msg|status body]; [done|].
  destruct ((400 <=? status) && (status <? 600)); [done|].
  by destruct body.
Qed.

(** X3: when the token request fails with a [RequestException], an
    operation returns the empty list without sending its GET, prints the
    one line of [authenticate], and stores no token. *)
Theorem run_failed_login (srv : server) (c : connector) (op : operation)
    (e : string) :
  truthy (auth_token c) = false →
  exchange srv (auth_request c) = inl e →
  run srv c op
  = {| returned := Ok (JArr []); after := c;
       printed := ["Authentication failed: " ++ e] |}.
Proof.
  intros Htoken Hauth.
  destruct (run_is_fetch op) as (path & query & what & Hrun & _).
  by rewrite Hrun, fetch_without_token, Hauth.
Qed.

(** X4: a token answer that is a JSON object without [access_token]
    counts as a successful login although no token is stored: the GET
    is sent, and the connector still has no usable token afterwards. *)
Theorem login_without_access_token (srv : server) (c : connector)
    (op : operation) (m : gmap string json) :
  truthy (auth_token c) = false →
  exchange srv (auth_request c) = inr (JObj m) →
  m !! "access_token" = None →
  returned (authenticate srv c) = Ok true
  ∧ after (run srv c op) = with_token c JNull
  ∧ truthy (auth_token (after (run srv c op))) = false
  ∧ (raises_request_exception srv (operation_request (with_token c JNull) op)
     → printed (run srv c op) ≠ []).
Proof.
  intros Htoken Hauth Hnone.
  destruct (run_is_fetch op) as (path & query & what & Hrun & Hrq).
  unfold authenticate. rewrite Hrun, fetch_without_token, Hauth, Hnone by done.
  simpl. rewrite Hrq. unfold raises_request_exception.
  destruct (exchange srv (get_request (with_token c JNull) path query));
    simpl; repeat split; try done.
  by intros [? ?].
Qed.

(** X5: after a login that yields a usable token the connector holds
    that token whatever the GET does, and the request of the next
    operation carries it. *)
Theorem login_token_reused (srv : server) (c : connector)
    (op next : operation) (m : gmap string json) (token : json) :
  truthy (auth_token c) = false →
  exchange srv (auth_request c) = inr (JObj m) →
  m !! "access_token" = Some token →
  truthy token = true →
  after (run srv c op) = with_token c token
  ∧ truthy (auth_token (after (run srv c op))) = true
  ∧ bearer (operation_request (after (run srv c op)) next) = Some token.
Proof.
  intros Htoken Hauth Hsome Htruthy.
  destruct (run_is_fetch op) as (path & query & what & Hrun & _).
  destruct (run_is_fetch next) as (path' & query' & what' & _ & Hrq').
  rewrite Hrun, fetch_without_token, Hauth, Hsome, Hrq' by done. simpl.
  by destruct (exchange srv (get_request (with_token c token) path query)).
Qed.

(** X6: with a stored token and a JSON object as answer, an operation
    returns what the object holds under the operation's key, the empty
    list when the key is absent, and prints nothing. *)
Theorem run_returns_list_under_key (srv : server) (c : connector)
    (op : operation) (m : gmap string json) :
  truthy (auth_token c) = true →
  exchange srv (operation_request c op) = inr (JObj m) →
  returned (run srv c op) = Ok (default (JArr []) (m !! operation_key op))
  ∧ (m !! operation_key op = None → returned (run srv c op) = Ok (JArr []))
  ∧ printed (run srv c op) = [].
Proof.
  intros Htoken Hget.
  destruct (run_is_fetch op) as (path & query & what & Hrun & Hrq).
  rewrite Hrq in Hget. rewrite Hrun, fetch_with_token, Hget by done. simpl.
  split; [done|]. split; [|done]. by intros ->.
Qed.

(** X7: the header of the session carries the stored token: this holds
    for a new connector and is kept by [authenticate] and by every
    operation. *)
Theorem header_carries_token_kept :
  (∀ base_url username password customer_id,
     header_carries_token
       (new_connector base_url username password customer_id))
  ∧ (∀ srv c op,
       header_carries_token c →
       header_carries_token (after (authenticate srv c))
       ∧ header_carries_token (after (run srv c op))).
Proof.
  split; [by left|].
  intros srv c op Hc.
  assert (∀ token, header_carries_token (with_token c token)) as Hwith
    by (by right).
  split.
  - unfold authenticate.
    destruct (exchange srv (auth_request c)) as [e|[]]; simpl; auto.
  - destruct (run_is_fetch op) as (path & query & what & Hrun & _).
    rewrite Hrun. destruct (truthy (auth_token c)) eqn:Htoken.
    + rewrite fetch_with_token by done. by destruct (exchange _ _).
    + rewrite fetch_without_token by done.
      destruct (exchange srv (auth_request c)) as [e|[]]; simpl; auto.
      destruct (exchange _ _); simpl; auto.
Qed.

Lemma rstrip_slash_no_trailing (s : string) :
  ends_with_slash (rstrip_slash s) = false.
Proof.
  induction s as [|a s IH]; [done|]. simpl.
  destruct (rstrip_slash s) as [|b r] eqn:Hr.
  - destruct (Ascii.eqb a "/") eqn:Ha; [done|]. simpl. exact Ha.
  - exact IH.
Qed.

Lemma append_empty_l (s : string) : "" ++ s = s.
Proof. reflexivity. Qed.

Lemma append_String (a : ascii) (s t : string) :
  String a s ++ t = String a (s ++ t).
Proof. reflexivity. Qed.

Lemma rstrip_slash_prefix (s : string) :
  ∃ n, s = rstrip_slash s ++ slashes n.
Proof.
  induction s as [|a s [n IH]]; [by exists 0%nat|]. simpl.
  destruct (rstrip_slash s) as [|b r] eqn:Hr.
  - rewrite append_empty_l in IH.
    destruct (Ascii.eqb a "/") eqn:Ha.
    + apply Ascii.eqb_eq in Ha as ->. exists (S n).
      rewrite append_empty_l. simpl. by rewrite <- IH.
    + exists n. by rewrite append_String, append_empty_l, <- IH.
  - exists n. by rewrite append_String, <- IH.
Qed.

Lemma rstrip_slash_fixed (s : string) :
  ends_with_slash s = false → rstrip_slash s = s.
Proof.
  induction s as [|a s IH]; [done|]. simpl.
  destruct s as [|b s'].
  - simpl. by intros ->.
  - intros Hs. by rewrite IH.
Qed.

(** X8: the constructor stores the base URL without trailing slashes:
    what is stored does not end in a slash, the URL given is what is
    stored followed by slashes only, and a URL that does not end in a
    slash is stored as it is. *)
Theorem new_connector_base_url (url username password customer_id : string) :
  let c := new_connector url username password customer_id in
  ends_with_slash (base_url c) = false
  ∧ (∃ n, url = base_url c ++ slashes n)
  ∧ (ends_with_slash url = false → base_url c = url).
Proof.
  simpl. split; [apply rstrip_slash_no_trailing|].
  split; [apply rstrip_slash_prefix|apply rstrip_slash_fixed].
Qed.

(** * More of the dashboard *)

Lemma column_raises (df : list record) (c : string) :
  has_column df c = false → column df c = Raise (KeyError c).
Proof. unfold column. by intros ->. Qed.


Lemma filter_length_le {A : Type} (P Q : A → Prop)
    `{∀ x, Decision (P x)} `{∀ x, Decision (Q x)} (l : list A) :
  (∀ x, P x → Q x) →
  (length (filter P l) ≤ length (filter Q l))%nat.
Proof.
  intros Himpl. induction l as [|x l IH]; [done|].
  rewrite !filter_cons.
  destruct (decide (P x)) as [HP|HP], (decide (Q x)) as [HQ|HQ]; simpl;
    try lia.
  destruct HQ. by apply Himpl.
Qed.

Lemma filter_disjoint_length {A : Type} (P Q : A → Prop)
    `{∀ x, Decision (P x)} `{∀ x, Decision (Q x)} (l : list A) :
  (∀ x, P x → Q x → False) →
  (length (filter P l) + length (filter Q l) ≤ length l)%nat
  ∧ ((length (filter P l) + length (filter Q l))%nat = length l ↔
     Forall (λ x, P x ∨ Q x) l).
Proof.
  intros Hdis. induction l as [|x l [IHle IHeq]].
  - split; [done|]. split; [constructor|done].
  - rewrite !filter_cons, Forall_cons.
    destruct (decide (P x)) as [HP|HP], (decide (Q x)) as [HQ|HQ]; simpl.
    + by destruct (Hdis x).
    + split; [lia|]. rewrite <- IHeq. split; [intros; split; [auto|lia]|].
      intros [_ ?]. lia.
    + split; [lia|]. rewrite <- IHeq. split; [intros; split; [auto|lia]|].
      intros [_ ?]. lia.
    + split; [lia|]. split; [lia|]. intros [[?|?] _]; done.
Qed.

(** X10: [calculate_metrics] returns exactly when a non-empty jobs frame
    has a [status] column and a non-empty candidates frame has a
    [dateadded] column without time zone and a [source] column; a jobs
    frame without [status] raises [KeyError] whatever the candidates
    are; a [dateadded] column with a time zone raises the [TypeError] of
    the comparison with [datetime.now()]; no other exception is raised. *)
Theorem calculate_metrics_returns_iff (now : Z) (d : dashboard) :
  (returns (calculate_metrics now d) ↔
   (jobs_empty d || has_column (job_record <$> jobs_df d) "status")
   && (candidates_empty d
       || negb (dateadded_aware (candidates_df d))
          && has_column (candidate_record <$> candidates_df d) "source")
   = true)
  ∧ (jobs_empty d = false →
     has_column (job_record <$> jobs_df d) "status" = false →
     calculate_metrics now d = Raise (KeyError "status"))
  ∧ (jobs_empty d || has_column (job_record <$> jobs_df d) "status" = true →
     candidates_empty d = false →
     dateadded_aware (candidates_df d) = true →
     calculate_metrics now d = Raise (TypeError ">="))
  ∧ (∀ e, calculate_metrics now d = Raise e →
          e = KeyError "status" ∨ e = TypeError ">="
          ∨ e = KeyError "source").
Proof.
  unfold returns, calculate_metrics, compare_dateadded, column.
  destruct (jobs_empty d), (has_column (job_record <$> jobs_df d) "status"),
    (candidates_empty d), (dateadded_aware (candidates_df d)),
    (has_column (candidate_record <$> candidates_df d) "source"); simpl;
    (split; [split; [try (by intros [? ?]); done|try done; eauto]
            |split; [try done
                    |split; [try done
                            |intros e He; try done;
                             injection He as <-; auto]]]).
Qed.

Lemma calculate_metrics_job_entries (now : Z) (d : dashboard)
    (m : gmap string metric) :
  calculate_metrics now d = Ok m → jobs_empty d = false →
  m !! "total_jobs" = Some (MInt (Z.of_nat (length (jobs_df d))))
  ∧ m !! "open_jobs"
    = Some (MInt (Z.of_nat (length
        (filter (λ j, job_cell "status" j = Some "open") (jobs_df d)))))
  ∧ m !! "closed_jobs"
    = Some (MInt (Z.of_nat (length
        (filter (λ j, job_cell "status" j = Some "closed") (jobs_df d))))).
Proof.
  intros Hm Hne. unfold calculate_metrics, compare_dateadded in Hm.
  rewrite Hne in Hm.
  destruct (column _ "status"); simpl in Hm; [|done].
  (destruct (candidates_empty _);
   [|destruct (dateadded_aware _); [|destruct (column _ "source")]]);
    simpl in Hm; try done; injection Hm as <-; by simplify_map_eq.
Qed.

Lemma calculate_metrics_top_source (now : Z) (d : dashboard)
    (m : gmap string metric) :
  calculate_metrics now d = Ok m → candidates_empty d = false →
  m !! "top_source"
  = Some match value_counts (candidate_cell "source" <$> candidates_df d) with
         | (s, _) :: _ => MStr s
         | [] => MStr "N/A"
         end.
Proof.
  intros Hm Hne. unfold calculate_metrics, compare_dateadded in Hm.
  rewrite Hne in Hm.
  destruct (jobs_empty _); [|destruct (column _ "status")];
    simpl in Hm; try done;
    (destruct (dateadded_aware _); simpl in Hm; [done|]);
    (destruct (column _ "source"); simpl in Hm; [|done]);
    injection Hm as <-; apply lookup_insert_eq.
Qed.

(** X11: the summary has exactly the four job entries when the jobs
    frame is not empty and exactly the three candidate entries when the
    candidates frame is not empty, and no other entry. *)
Theorem calculate_metrics_keys (now : Z) (d : dashboard)
    (m : gmap string metric) :
  calculate_metrics now d = Ok m →
  dom m
  = (if jobs_empty d then ∅
     else {["total_jobs"; "open_jobs"; "closed_jobs"; "avg_time_to_fill"]})
    ∪ (if candidates_empty d then ∅
       else {["total_candidates"; "candidates_this_month"; "top_source"]}).
Proof.
  intros Hm. unfold calculate_metrics, compare_dateadded in Hm.
  destruct (jobs_empty d); [|destruct (column _ "status")];
    simpl in Hm; try done;
    (destruct (candidates_empty d);
     [|destruct (dateadded_aware _); [|destruct (column _ "source")]]);
    simpl in Hm; try done; injection Hm as <-;
    rewrite ?dom_insert_L, dom_empty_L; apply set_eq; intros k;
    rewrite ?elem_of_union, ?elem_of_singleton, ?elem_of_empty; tauto.
Qed.

(** X12: [open_jobs + closed_jobs] never exceeds [total_jobs], the
    number of rows, and equals it exactly when every job has the status
    "open" or "closed". *)
Theorem open_and_closed_at_most_total (now : Z) (d : dashboard)
    (m : gmap string metric) :
  calculate_metrics now d = Ok m → jobs_empty d = false →
  ∃ total open closed : nat,
    m !! "total_jobs" = Some (MInt (Z.of_nat total))
    ∧ m !! "open_jobs" = Some (MInt (Z.of_nat open))
    ∧ m !! "closed_jobs" = Some (MInt (Z.of_nat closed))
    ∧ total = length (jobs_df d)
    ∧ (open + closed ≤ total)%nat
    ∧ ((open + closed)%nat = total ↔
       Forall (λ j, job_cell "status" j = Some "open"
                    ∨ job_cell "status" j = Some "closed") (jobs_df d)).
Proof.
  intros Hm Hne.
  destruct (calculate_metrics_job_entries now d m Hm Hne) as (Ht & Ho & Hc).
  eexists _, _, _. split; [exact Ht|]. split; [exact Ho|].
  split; [exact Hc|]. split; [done|].
  apply (filter_disjoint_length
           (λ j, job_cell "status" j = Some "open")
           (λ j, job_cell "status" j = Some "closed")).
  intros j Hopen Hclosed. congruence.
Qed.

(** X13: a later "now" never raises [candidates_this_month], and the
    count never exceeds [total_candidates]. *)
Theorem candidates_this_month_antitone (now now' : Z) (d : dashboard)
    (m m' : gmap string metric) :
  calculate_metrics now d = Ok m → calculate_metrics now' d = Ok m' →
  candidates_empty d = false → now ≤ now' →
  ∃ n n' total : nat,
    m !! "candidates_this_month" = Some (MInt (Z.of_nat n))
    ∧ m' !! "candidates_this_month" = Some (MInt (Z.of_nat n'))
    ∧ m !! "total_candidates" = Some (MInt (Z.of_nat total))
    ∧ (n' ≤ n ≤ total)%nat.
Proof.
  intros Hm Hm' Hne Hle.
  pose proof (lookup_candidates_this_month _ _ _ Hm) as Hn.
  pose proof (lookup_candidates_this_month _ _ _ Hm') as Hn'.
  pose proof (lookup_total_candidates _ _ _ Hm) as Ht.
  rewrite Hne in Hn, Hn', Ht.
  eexists _, _, _. split; [exact Hn|]. split; [exact Hn'|].
  split; [exact Ht|]. split.
  - apply filter_length_le. intros x. unfold timestamp_ge.
    destruct (dateadded x) as [t|]; [|done].
    rewrite !bool_decide_spec. lia.
  - apply length_filter.
Qed.

(** ** The most frequent source *)

Lemma elem_of_first_seen (x : string) (l : list string) :
  x ∈ first_seen l ↔ x ∈ l.
Proof.
  induction l as [|a l IH]; [done|]. simpl.
  rewrite !elem_of_cons, list_elem_of_filter, IH.
  destruct (decide (x = a)); tauto.
Qed.

Lemma elem_of_insert_by_count (x p : string * nat) (l : list (string * nat)) :
  x ∈ insert_by_count p l ↔ x = p ∨ x ∈ l.
Proof.
  induction l as [|q l IH]; simpl.
  - rewrite list_elem_of_singleton, elem_of_nil. tauto.
  - destruct (decide (q.2 ≤ p.2)%nat).
    + by rewrite elem_of_cons.
    + rewrite !elem_of_cons, IH. tauto.
Qed.

Lemma elem_of_sorted_by_count (x : string * nat) (l : list (string * nat)) :
  x ∈ foldr insert_by_count [] l ↔ x ∈ l.
Proof.
  induction l as [|p l IH]; [done|]. simpl.
  rewrite elem_of_insert_by_count, elem_of_cons, IH. tauto.
Qed.

Lemma insert_by_count_descending (p : string * nat)
    (l : list (string * nat)) :
  StronglySorted (λ a b : string * nat, (b.2 ≤ a.2)%nat) l →
  StronglySorted (λ a b : string * nat, (b.2 ≤ a.2)%nat)
    (insert_by_count p l).
Proof.
  induction 1 as [|q l Hs IH Hall]; simpl.
  - repeat constructor.
  - destruct (decide (q.2 ≤ p.2)%nat) as [Hle|Hgt].
    + constructor; [by constructor|].
      constructor; [done|].
      eapply Forall_impl; [exact Hall|]. simpl. intros y Hy. lia.
    + constructor; [exact IH|].
      apply Forall_forall. intros y Hy.
      apply elem_of_insert_by_count in Hy as [->|Hy]; [lia|].
      rewrite Forall_forall in Hall. by apply Hall.
Qed.

Lemma sorted_by_count_descending (l : list (string * nat)) :
  StronglySorted (λ a b : string * nat, (b.2 ≤ a.2)%nat)
    (foldr insert_by_count [] l).
Proof.
  induction l as [|p l IH]; simpl; [constructor|].
  by apply insert_by_count_descending.
Qed.

Lemma count_of_values {A : Type} (f : A → option string) (v : string)
    (l : list A) :
  length (filter (λ y, y = v) (omap id (f <$> l)))
  = length (filter (λ x, f x = Some v) l).
Proof.
  induction l as [|x l IH]; [done|].
  rewrite fmap_cons, filter_cons. unfold omap in *. simpl.
  destruct (f x) as [y|]; simpl.
  - rewrite filter_cons.
    destruct (decide (y = v)), (decide (Some y = Some v)); simpl; congruence.
  - destruct (decide (None = Some v)); [done|]. exact IH.
Qed.

(** The head of [value_counts] is a value of the column with the
    greatest count. *)
Lemma value_counts_head {A : Type} (f : A → option string) (l : list A)
    (s : string) (n : nat) (rest : list (string * nat)) :
  value_counts (f <$> l) = (s, n) :: rest →
  (∃ x, x ∈ l ∧ f x = Some s)
  ∧ ∀ s', (length (filter (λ x, f x = Some s') l)
           ≤ length (filter (λ x, f x = Some s) l))%nat.
Proof.
  unfold value_counts. intros Hvc.
  set (vals := omap id (f <$> l)) in *.
  set (pairs := (λ v, (v, length (filter (λ y, y = v) vals)))
                  <$> first_seen vals) in *.
  assert ((s, n) ∈ pairs) as Hin.
  { apply elem_of_sorted_by_count. rewrite Hvc. left. }
  apply list_elem_of_fmap in Hin as (v & [= <- ->] & Hv).
  rewrite elem_of_first_seen in Hv.
  split.
  - apply list_elem_of_omap in Hv as (o & Ho & Hov).
    apply list_elem_of_fmap in Ho as (x & -> & Hx). eauto.
  - intros s'. rewrite <- !count_of_values. fold vals.
    destruct (decide (s' ∈ vals)) as [Hs'|Hs'].
    + assert ((s', length (filter (λ y, y = s') vals))
                ∈ foldr insert_by_count [] pairs) as Hin'.
      { apply elem_of_sorted_by_count, list_elem_of_fmap.
        exists s'. split; [done|]. by apply elem_of_first_seen. }
      pose proof (sorted_by_count_descending pairs) as Hsorted.
      rewrite Hvc in Hsorted, Hin'.
      apply elem_of_cons in Hin' as [[= -> _]|Hin']; [done|].
      apply StronglySorted_inv in Hsorted as [_ Hall].
      rewrite Forall_forall in Hall. by apply (Hall _ Hin').
    + assert (filter (λ y, y = s') vals = []) as ->; [|simpl; lia].
      apply length_zero_iff_nil.
      destruct (filter (λ y, y = s') vals) as [|y ys] eqn:Hf; [done|].
      assert (y ∈ filter (λ y, y = s') vals) as Hy by (rewrite Hf; left).
      apply list_elem_of_filter in Hy as [-> Hy]. done.
Qed.

Lemma value_counts_nil {A : Type} (f : A → option string) (l : list A) :
  value_counts (f <$> l) = [] → Forall (λ x, f x = None) l.
Proof.
  unfold value_counts. intros Hvc. apply Forall_forall. intros x Hx.
  destruct (f x) as [v|] eqn:Hfx; [|done]. exfalso.
  assert (v ∈ omap id (f <$> l)) as Hv.
  { apply list_elem_of_omap. exists (Some v). split; [|done].
    apply list_elem_of_fmap. eauto. }
  rewrite <- elem_of_first_seen in Hv.
  assert ((v, length (filter (λ y, y = v) (omap id (f <$> l))))
            ∈ foldr insert_by_count []
                ((λ v, (v, length (filter (λ y, y = v) (omap id (f <$> l)))))
                   <$> first_seen (omap id (f <$> l)))) as Hin.
  { apply elem_of_sorted_by_count, list_elem_of_fmap. eauto. }
  rewrite Hvc in Hin. by apply elem_of_nil in Hin.
Qed.

(** X14: for a non-empty candidates frame [top_source] is a source that
    occurs, and no source occurs more often; it is "N/A" when every
    source is null. *)
Theorem top_source_most_frequent (now : Z) (d : dashboard)
    (m : gmap string metric) :
  calculate_metrics now d = Ok m → candidates_empty d = false →
  ∃ s, m !! "top_source" = Some (MStr s)
    ∧ ((Forall (λ x, candidate_cell "source" x = None) (candidates_df d)
        ∧ s = "N/A")
       ∨ ((∃ x, x ∈ candidates_df d ∧ candidate_cell "source" x = Some s)
          ∧ ∀ s',
              (length (filter (λ x, candidate_cell "source" x = Some s')
                         (candidates_df d))
               ≤ length (filter (λ x, candidate_cell "source" x = Some s)
                           (candidates_df d)))%nat)).
Proof.
  intros Hm Hne. rewrite (calculate_metrics_top_source now d m Hm Hne).
  destruct (value_counts _) as [|[s n] rest] eqn:Hvc.
  - exists "N/A". split; [done|]. left. split; [|done].
    by apply value_counts_nil.
  - exists s. split; [done|]. right. by eapply value_counts_head.
Qed.

(** X15: [authenticate] returns [False] exactly when the token request
    raises a [RequestException] and [True] exactly when it is answered
    with a JSON object; unless it returns [True] the connector is left
    as it was, and a line is printed exactly when it returns [False]. *)
Theorem authenticate_outcomes (srv : server) (c : connector) :
  (returned (authenticate srv c) = Ok false ↔
   raises_request_exception srv (auth_request c))
  ∧ (returned (authenticate srv c) = Ok true ↔
     ∃ m, exchange srv (auth_request c) = inr (JObj m))
  ∧ (returned (authenticate srv c) ≠ Ok true →
     after (authenticate srv c) = c)
  ∧ (printed (authenticate srv c) ≠ [] ↔
     returned (authenticate srv c) = Ok false).
Proof.
  unfold authenticate, raises_request_exception.
  destruct (exchange srv (auth_request c)) as [e|[]]; simpl;
    repeat split; try done; eauto;
    try (by intros [? ?]); try (by intros [? [=]]).
Qed.

(** * More of the charts *)

Lemma ratio_bounds (a b : Z) :
  0 ≤ a → 0 ≤ b →
  Qle 0 (Qdiv (inject_Z a) (inject_Z b + 1)%Q)
  ∧ Qle (Qdiv (inject_Z a) (inject_Z b + 1)%Q) (inject_Z a).
Proof.
  intros Ha Hb.
  assert (Qlt 0 (inject_Z b + 1)%Q) as Hden.
  { change 1%Q with (inject_Z 1). rewrite <- inject_Z_plus.
    change 0%Q with (inject_Z 0). rewrite <- Zlt_Qlt. lia. }
  split.
  - apply Qle_shift_div_l; [exact Hden|]. rewrite Qmult_0_l.
    change 0%Q with (inject_Z 0). rewrite <- Zle_Qle. lia.
  - apply Qle_shift_div_r; [exact Hden|].
    change 1%Q with (inject_Z 1). rewrite <- inject_Z_plus, <- inject_Z_mult.
    rewrite <- Zle_Qle. nia.
Qed.

Lemma merged_recruiters {A B : Type} (l : list (string * (nat * option Q)))
    (r : list (string * nat)) :
  Recruiter.Recruiter <$> (fillna_row <$> merge_outer l r)
  = unique_sorted (l.*1 ++ r.*1).
Proof.
  rewrite <- merge_outer_keys, <- list_fmap_compose.
  apply list_fmap_ext. by intros _ [k [a b]] _.
Qed.

Lemma recruiter_metrics_rows_length (d : dashboard)
    (rows : list Recruiter.row) :
  recruiter_metrics d = Ok rows →
  (length rows ≤ 10)%nat
  ∧ ascending (Recruiter.Recruiter <$> rows).
Proof.
  unfold recruiter_metrics, recruiter_merged.
  destruct (recruiter_jobs d) as [l|]; simpl; [|done].
  destruct (recruiter_candidates d) as [r|]; simpl; [|done].
  intros [= <-]. split; [rewrite length_take; lia|].
  rewrite fmap_take, (merged_recruiters (A := unit) (B := unit)).
  apply ascending_take, unique_sorted_ascending.
Qed.

(** X16: the recruiter table has at most 10 rows, listed by ascending
    recruiter without repetition; the efficiency of a row is never
    negative and never more than its number of candidates, the
    denominator being at least 1. *)
Theorem recruiter_metrics_rows (d : dashboard) (rows : list Recruiter.row) :
  recruiter_metrics d = Ok rows →
  (length rows ≤ 10)%nat
  ∧ ascending (Recruiter.Recruiter <$> rows)
  ∧ NoDup (Recruiter.Recruiter <$> rows)
  ∧ ∀ row, row ∈ rows →
      Qle 0 (efficiency row)
      ∧ Qle (efficiency row) (Q_of_nat (Recruiter.Total_Candidates row)).
Proof.
  intros Hrows.
  destruct (recruiter_metrics_rows_length d rows Hrows) as [Hlen Hasc].
  split; [exact Hlen|]. split; [exact Hasc|].
  split; [by apply ascending_NoDup|].
  intros row _. unfold efficiency, Q_of_nat. apply ratio_bounds; lia.
Qed.

Lemma position_metrics_positions (d : dashboard) (rows : list Position.row) :
  position_metrics d = Ok rows →
  Position.Position <$> rows
  = take 15 (unique_sorted (omap (job_cell "title") (jobs_df d))).
Proof.
  unfold position_metrics.
  destruct (column _ "title"); simpl; [|done].
  destruct (column _ "id"); simpl; [|done].
  destruct (column _ "status"); simpl; [|done].
  intros [= <-]. rewrite fmap_take. f_equal.
  rewrite <- groupby_keys, <- list_fmap_compose.
  apply list_fmap_ext. by intros _ [k g] _.
Qed.

(** X17: on an empty jobs frame the position chart is the empty figure;
    on a non-empty one it is produced exactly when the [title], [id] and
    [status] columns exist, and then has two bar traces over the same at
    most 15 positions, listed by ascending title, with one value per
    position. *)
Theorem create_position_metrics_chart_shape (d : dashboard) :
  (jobs_empty d = true → create_position_metrics_chart d = Ok [])
  ∧ (jobs_empty d = false →
     (returns (create_position_metrics_chart d) ↔
      has_column (job_record <$> jobs_df d) "title"
      && has_column (job_record <$> jobs_df d) "id"
      && has_column (job_record <$> jobs_df d) "status" = true))
  ∧ (∀ fig, create_position_metrics_chart d = Ok fig →
       fig = []
       ∨ ∃ jobs_trace days_trace,
           fig = [jobs_trace; days_trace]
           ∧ trace_x jobs_trace = trace_x days_trace
           ∧ length (trace_y jobs_trace) = length (trace_x jobs_trace)
           ∧ length (trace_y days_trace) = length (trace_x jobs_trace)
           ∧ (length (trace_x jobs_trace) ≤ 15)%nat
           ∧ ascending (trace_x jobs_trace)).
Proof.
  unfold create_position_metrics_chart. split; [by intros ->|]. split.
  - intros ->. unfold returns, position_metrics, column.
    destruct (has_column _ "title"), (has_column _ "id"),
      (has_column _ "status"); simpl; split; try done; eauto;
      by intros [? ?].
  - intros fig. destruct (jobs_empty d); [intros [= <-]; by left|].
    destruct (position_metrics d) as [rows|] eqn:Hrows; simpl; [|done].
    intros [= <-]. right. eexists _, _. split; [done|]. simpl.
    rewrite !length_fmap. repeat split.
    + rewrite <- (length_fmap Position.Position),
        (position_metrics_positions d rows Hrows), length_take. lia.
    + rewrite (position_metrics_positions d rows Hrows).
      apply ascending_take, unique_sorted_ascending.
Qed.

(** X18: when either frame is empty the recruiter chart is the empty
    figure, whatever the other frame holds; otherwise it is produced
    exactly when both frames have a [recruiter] column and the jobs an
    [id] column, and then has four bar traces over the same at most 10
    recruiters with one value per recruiter. *)
Theorem create_recruiter_metrics_chart_shape (d : dashboard) :
  (jobs_empty d || candidates_empty d = true →
   create_recruiter_metrics_chart d = Ok [])
  ∧ (jobs_empty d || candidates_empty d = false →
     (returns (create_recruiter_metrics_chart d) ↔
      has_column (job_record <$> jobs_df d) "recruiter"
      && has_column (job_record <$> jobs_df d) "id"
      && has_column (candidate_record <$> candidates_df d) "recruiter"
      = true))
  ∧ (∀ fig, create_recruiter_metrics_chart d = Ok fig →
       fig = []
       ∨ ∃ t1 t2 t3 t4 x,
           fig = [t1; t2; t3; t4]
           ∧ trace_name <$> fig
             = ["Jobs"; "Candidates"; "Days to Fill"; "Efficiency"]
           ∧ Forall (λ t, trace_x t = x ∧ length (trace_y t) = length x) fig
           ∧ (length x ≤ 10)%nat).
Proof.
  unfold create_recruiter_metrics_chart. split; [by intros ->|]. split.
  - intros ->. unfold returns, recruiter_metrics, recruiter_merged.
    unfold recruiter_jobs, recruiter_candidates, column.
    destruct (has_column (job_record <$> jobs_df d) "recruiter"),
      (has_column (job_record <$> jobs_df d) "id"),
      (has_column (candidate_record <$> candidates_df d) "recruiter"); simpl;
      split; try done; eauto; by intros [? ?].
  - intros fig. destruct (jobs_empty d || candidates_empty d);
      [intros [= <-]; by left|].
    destruct (recruiter_metrics d) as [rows|] eqn:Hrows; simpl; [|done].
    intros [= <-]. right. eexists _, _, _, _, _.
    split; [done|]. split; [done|]. split.
    + repeat constructor; simpl; by rewrite !length_fmap.
    + simpl. rewrite length_fmap.
      by destruct (recruiter_metrics_rows_length d rows Hrows).
Qed.

(** * More of the preprocessing *)


(** * The extraction and the refresh *)

Section ExtractDataFacts.
Context (DataFrame : json → result (list record)).
Context (to_datetime : conversion).

Lemma run_unreachable (srv : server) (c : connector) (op : operation) :
  (∀ rq, raises_request_exception srv rq) →
  returned (run srv c op) = Ok (JArr [])
  ∧ after (run srv c op) = c
  ∧ length (printed (run srv c op)) = 1%nat.
Proof.
  intros Hdown.
  destruct (run_is_fetch op) as (path & query & what & Hrun & _).
  rewrite Hrun. destruct (truthy (auth_token c)) eqn:Htoken.
  - rewrite fetch_with_token by done.
    by destruct (Hdown (get_request c path query)) as [e ->].
  - rewrite fetch_without_token by done.
    by destruct (Hdown (auth_request c)) as [e ->].
Qed.

Lemma extract_data_unreachable (srv : server) (c : connector) :
  DataFrame (JArr []) = Ok [] →
  (∀ rq, raises_request_exception srv rq) →
  returned (extract_data DataFrame to_datetime srv c)
  = Ok {| jobs_df := []; candidates_df := [] |}
  ∧ after (extract_data DataFrame to_datetime srv c) = c
  ∧ length (printed (extract_data DataFrame to_datetime srv c)) = 4%nat.
Proof.
  intros Hframe Hdown. unfold extract_data.
  destruct (run_unreachable srv c (GetJobs "open" 500) Hdown)
    as (Hj & Hcj & Hpj).
  simpl in Hj, Hcj, Hpj. rewrite Hj. simpl. rewrite Hframe, Hcj.
  destruct (run_unreachable srv c (GetCandidates None 1000) Hdown)
    as (Hk & Hck & Hpk).
  simpl in Hk, Hck, Hpk. rewrite Hk. simpl.
  rewrite Hframe. split; [done|]. split; [done|].
  rewrite length_app. simpl. lia.
Qed.

(** X20: when every request to the API fails with a
    [RequestException], [extract_data] still returns: both frames are
    without rows, the connector has no token, four lines were printed,
    and then the summary is the empty mapping and the three charts are
    empty. *)
Theorem extract_data_degrades (srv : server) (c : connector) (now : Z) :
  DataFrame (JArr []) = Ok [] →
  (∀ rq, raises_request_exception srv rq) →
  ∃ d, returned (extract_data DataFrame to_datetime srv c) = Ok d
    ∧ jobs_df d = [] ∧ candidates_df d = []
    ∧ after (extract_data DataFrame to_datetime srv c) = c
    ∧ length (printed (extract_data DataFrame to_datetime srv c)) = 4%nat
    ∧ calculate_metrics now d = Ok ∅
    ∧ create_position_metrics_chart d = Ok []
    ∧ create_recruiter_metrics_chart d = Ok []
    ∧ create_timeline_chart d = [].
Proof.
  intros Hframe Hdown.
  destruct (extract_data_unreachable srv c Hframe Hdown) as (Hd & Hc & Hp).
  eexists. split; [exact Hd|]. by repeat split.
Qed.

(** X21: the refresh button changes the stored dashboard only when the
    extraction returns; with a field left empty or an exception raised
    the stored dashboard stays; and with all fields filled in and an API
    whose every request fails it reports success and stores a dashboard
    without rows. *)
Theorem connect_and_refresh_outcomes (srv : server)
    (url username password customer_id : string)
    (session : option dashboard) :
  (snd (connect_and_refresh DataFrame to_datetime srv url username password
          customer_id session) ≠ DataExtracted →
   fst (connect_and_refresh DataFrame to_datetime srv url username password
          customer_id session) = session)
  ∧ (url = "" ∨ username = "" ∨ password = "" ∨ customer_id = "" →
     connect_and_refresh DataFrame to_datetime srv url username password
       customer_id session = (session, FillInAllFields))
  ∧ (url ≠ "" → username ≠ "" → password ≠ "" → customer_id ≠ "" →
     DataFrame (JArr []) = Ok [] →
     (∀ rq, raises_request_exception srv rq) →
     connect_and_refresh DataFrame to_datetime srv url username password
       customer_id session
     = (Some {| jobs_df := []; candidates_df := [] |}, DataExtracted)).
Proof.
  unfold connect_and_refresh. split; [|split].
  - destruct (_ && _); [|done].
    by destruct (returned (extract_data _ _ _ _)).
  - intros [-> | [-> | [-> | ->]]]; simpl; rewrite ?andb_false_r; done.
  - intros Hu Hn Hp Hi Hframe Hdown.
    apply String.eqb_neq in Hu, Hn, Hp, Hi. rewrite Hu, Hn, Hp, Hi. simpl.
    destruct (extract_data_unreachable srv
                (new_connector url username password customer_id)
                Hframe Hdown) as (-> & _). done.
Qed.
End ExtractDataFacts.

(** * The further properties at concrete inputs *)

Lemma run_with_token_skips_login_witness :
  run (token_server (JStr "abc")) logged_in_connector (GetJobs "open" 100)
  = run (constant_server ∅) logged_in_connector (GetJobs "open" 100)
  ∧ after (run (token_server (JStr "abc")) logged_in_connector
             (GetJobs "open" 100)) = logged_in_connector.
Proof.
  apply (run_with_token_skips_login (token_server (JStr "abc"))
           (constant_server ∅) logged_in_connector (GetJobs "open" 100));
    reflexivity.
Defined.

Lemma run_failed_login_witness :
  run unreachable fresh_connector (GetCandidates (Some "J1") 100)
  = {| returned := Ok (JArr []); after := fresh_connector;
       printed := ["Authentication failed: connection refused"] |}.
Proof.
  apply (run_failed_login unreachable fresh_connector
           (GetCandidates (Some "J1") 100) "connection refused");
    reflexivity.
Defined.

Lemma login_without_access_token_witness :
  returned (authenticate (constant_server ∅) fresh_connector) = Ok true
  ∧ truthy (auth_token (after (run (constant_server ∅) fresh_connector
                                 (GetWorkflowSteps "J1")))) = false.
Proof.
  destruct (login_without_access_token (constant_server ∅) fresh_connector
              (GetWorkflowSteps "J1") ∅)
    as (Hlogin & _ & Htoken & _); [reflexivity..|].
  split; [exact Hlogin|exact Htoken].
Defined.

Lemma login_token_reused_witness :
  bearer (operation_request
            (after (run (token_server (JStr "abc")) fresh_connector
                      (GetJobs "open" 100)))
            (GetCandidates None 100))
  = Some (JStr "abc").
Proof.
  destruct (login_token_reused (token_server (JStr "abc")) fresh_connector
              (GetJobs "open" 100) (GetCandidates None 100)
              {["access_token" := JStr "abc"]} (JStr "abc"))
    as (_ & _ & Hbearer); [reflexivity..|].
  exact Hbearer.
Defined.

Lemma run_returns_list_under_key_witness :
  returned (run (constant_server {["jobs" := JArr [JStr "J1"]]})
              logged_in_connector (GetJobs "open" 100))
  = Ok (JArr [JStr "J1"])
  ∧ returned (run (constant_server {["jobs" := JArr [JStr "J1"]]})
                logged_in_connector (GetCandidates None 100))
    = Ok (JArr []).
Proof.
  split.
  - exact (proj1 (run_returns_list_under_key
                    (constant_server {["jobs" := JArr [JStr "J1"]]})
                    logged_in_connector (GetJobs "open" 100)
                    {["jobs" := JArr [JStr "J1"]]} eq_refl eq_refl)).
  - exact (proj1 (proj2 (run_returns_list_under_key
                           (constant_server {["jobs" := JArr [JStr "J1"]]})
                           logged_in_connector (GetCandidates None 100)
                           {["jobs" := JArr [JStr "J1"]]} eq_refl eq_refl))
             eq_refl).
Defined.

Lemma calculate_metrics_keys_witness :
  ∃ m, calculate_metrics 0 two_jobs = Ok m
    ∧ dom m
      = {["total_jobs"; "open_jobs"; "closed_jobs"; "avg_time_to_fill"]} ∪ ∅.
Proof.
  destruct (calculate_metrics 0 two_jobs) as [m|e] eqn:Hm;
    [|vm_compute in Hm; discriminate].
  exists m. split; [reflexivity|].
  exact (calculate_metrics_keys 0 two_jobs m Hm).
Defined.

Lemma open_and_closed_at_most_total_witness :
  ∃ (m : gmap string metric) (open closed : nat),
    calculate_metrics 0 two_jobs = Ok m
    ∧ m !! "total_jobs" = Some (MInt 2)
    ∧ m !! "open_jobs" = Some (MInt (Z.of_nat open))
    ∧ m !! "closed_jobs" = Some (MInt (Z.of_nat closed))
    ∧ (open + closed ≤ 2)%nat.
Proof.
  destruct (calculate_metrics 0 two_jobs) as [m|e] eqn:Hm;
    [|vm_compute in Hm; discriminate].
  destruct (open_and_closed_at_most_total 0 two_jobs m Hm eq_refl)
    as (total & open & closed & Htotal & Hopen & Hclosed & -> & Hle & _).
  exists m, open, closed. split; [reflexivity|].
  split; [exact Htotal|]. split; [exact Hopen|]. split; [exact Hclosed|].
  exact Hle.
Defined.

Lemma candidates_this_month_antitone_witness :
  ∃ (m m' : gmap string metric) (n n' : nat),
    calculate_metrics (midnight 2024 1 15) two_recruiters = Ok m
    ∧ calculate_metrics (midnight 2024 3 15) two_recruiters = Ok m'
    ∧ m !! "candidates_this_month" = Some (MInt (Z.of_nat n))
    ∧ m' !! "candidates_this_month" = Some (MInt (Z.of_nat n'))
    ∧ (n' ≤ n)%nat.
Proof.
  destruct (calculate_metrics (midnight 2024 1 15) two_recruiters)
    as [m|e] eqn:Hm; [|vm_compute in Hm; discriminate].
  destruct (calculate_metrics (midnight 2024 3 15) two_recruiters)
    as [m'|e] eqn:Hm'; [|vm_compute in Hm'; discriminate].
  destruct (candidates_this_month_antitone (midnight 2024 1 15)
              (midnight 2024 3 15) two_recruiters m m' Hm Hm' eq_refl)
    as (n & n' & total & Hn & Hn' & _ & Hle & _);
    [vm_compute; discriminate|].
  exists m, m', n, n'. split; [reflexivity|]. split; [reflexivity|].
  split; [exact Hn|]. split; [exact Hn'|exact Hle].
Defined.

Lemma top_source_most_frequent_witness :
  ∃ m s, calculate_metrics 0 two_recruiters = Ok m
    ∧ m !! "top_source" = Some (MStr s).
Proof.
  destruct (calculate_metrics 0 two_recruiters) as [m|e] eqn:Hm;
    [|vm_compute in Hm; discriminate].
  destruct (top_source_most_frequent 0 two_recruiters m Hm eq_refl)
    as (s & Hs & _).
  exists m, s. split; [reflexivity|exact Hs].
Defined.

Lemma recruiter_metrics_rows_witness :
  ∃ rows, recruiter_metrics two_recruiters = Ok rows
    ∧ (length rows ≤ 10)%nat
    ∧ NoDup (Recruiter.Recruiter <$> rows).
Proof.
  destruct (recruiter_metrics two_recruiters) as [rows|e] eqn:Hrows;
    [|vm_compute in Hrows; discriminate].
  destruct (recruiter_metrics_rows two_recruiters rows Hrows)
    as (Hlen & _ & Hnodup & _).
  exists rows. split; [reflexivity|]. split; [exact Hlen|exact Hnodup].
Defined.


Lemma extract_data_degrades_witness :
  ∃ d, returned (extract_data no_rows iso_dates unreachable fresh_connector)
       = Ok d
    ∧ calculate_metrics 0 d = Ok ∅
    ∧ create_timeline_chart d = [].
Proof.
  destruct (extract_data_degrades no_rows iso_dates unreachable
              fresh_connector 0)
    as (d & Hd & _ & _ & _ & _ & Hmetrics & _ & _ & Htimeline);
    [reflexivity|intros rq; eexists; reflexivity|].
  exists d. split; [exact Hd|]. split; [exact Hmetrics|exact Htimeline].
Defined.
